(** * EduVerify: wallet session, contract binding and identity synchronisation

    A shallow embedding of the stateful core of the EduVerify front-end:

    - [components/web3-provider.tsx]  -> module [Web3]  (the chain session),
    - the auth provider               -> module [Auth]  (the user identity),
    - the credential pages            -> module [Pages] (batch reads and the
      clean-up of contract-call errors).

    React state is modelled by explicit state passing: every [useState] cell
    is a record field, every handler is a function from the state (and the
    replies of the outside world at each [await]) to the next state, the value
    the promise settles with, and the effects it has outside the state.

    [Props] holds the vocabulary of the properties and the sample data;
    [JsFacts], [Web3Facts], [AuthFacts] and [PagesFacts] hold the proofs. *)

From Stdlib Require Import ZArith Ascii String List Bool Lia.
From Stdlib Require HexString.
From stdpp Require Import base option strings gmap list.
Import ListNotations.

Local Open Scope string_scope.
Local Arguments String.append : simpl nomatch.

(** ** JavaScript strings

    A [string] stands for a JavaScript string whose UTF-16 code units are all
    below 256; each [ascii] is one code unit. *)
Module Js.

(** Truthiness of a string: only the empty string is falsy. *)
Definition truthy (s : string) : bool :=
  match s with
  | EmptyString => false
  | String _ _ => true
  end.

(** Truthiness of [string | null | undefined]. *)
Definition truthy_opt (o : option string) : bool :=
  match o with
  | Some s => truthy s
  | None => false
  end.

(** White space and line terminators, as [trim] and [parseInt] skip them
    (TAB, LF, VT, FF, CR, SP, NBSP). *)
Definition is_ws (c : ascii) : bool :=
  let n := nat_of_ascii c in
  Nat.eqb n 9 || Nat.eqb n 10 || Nat.eqb n 11 || Nat.eqb n 12
  || Nat.eqb n 13 || Nat.eqb n 32 || Nat.eqb n 160.

Fixpoint trimStart (s : string) : string :=
  match s with
  | EmptyString => EmptyString
  | String c r => if is_ws c then trimStart r else s
  end.

Fixpoint trimEnd (s : string) : string :=
  match s with
  | EmptyString => EmptyString
  | String c r =>
      match trimEnd r with
      | EmptyString => if is_ws c then EmptyString else String c EmptyString
      | r' => String c r'
      end
  end.

(** [s.trim()] *)
Definition trim (s : string) : string := trimEnd (trimStart s).

(** [s.split(sep)] for a separator of one code unit. *)
Fixpoint split (sep : ascii) (s : string) : list string :=
  match s with
  | EmptyString => [EmptyString]
  | String c r =>
      if Ascii.eqb c sep then EmptyString :: split sep r
      else match split sep r with
           | seg :: segs => String c seg :: segs
           | [] => [String c EmptyString]
           end
  end.

(** [s.split(sep)[0]]; the array is never empty. *)
Definition split0 (sep : ascii) (s : string) : string :=
  match split sep s with
  | seg :: _ => seg
  | [] => EmptyString
  end.

(** [s.startsWith(p)] *)
Fixpoint startsWith (s p : string) {struct p} : bool :=
  match p, s with
  | EmptyString, _ => true
  | String _ _, EmptyString => false
  | String a p', String b s' => Ascii.eqb a b && startsWith s' p'
  end.

(** [s.includes(sub)] *)
Fixpoint includes (s sub : string) : bool :=
  startsWith s sub
  || match s with
     | EmptyString => false
     | String _ r => includes r sub
     end.

(** [s.toLowerCase()] on code units below 256: A-Z, and the capital
    letters of Latin-1 (192-222 but the sign 215). *)
Definition lower (c : ascii) : ascii :=
  let n := nat_of_ascii c in
  if (Nat.leb 65 n && Nat.leb n 90)
     || (Nat.leb 192 n && Nat.leb n 222 && negb (Nat.eqb n 215))
  then ascii_of_nat (n + 32) else c.

Fixpoint toLowerCase (s : string) : string :=
  match s with
  | EmptyString => EmptyString
  | String c r => String (lower c) (toLowerCase r)
  end.

(** [s.slice(from, to)] for indices that are not negative. *)
Definition slice (from to : nat) (s : string) : string :=
  substring from (to - from) s.

(** A JavaScript number as far as the code needs it: [NaN], an integer
    that a double holds, or an infinity ([negative] or not). *)
Inductive number : Type :=
| NaN
| Int (z : Z)
| Infinity (negative : bool).

(** [a === b] on numbers: [NaN] equals nothing. *)
Definition strict_eq (a b : number) : bool :=
  match a, b with
  | Int x, Int y => Z.eqb x y
  | Infinity x, Infinity y => Bool.eqb x y
  | _, _ => false
  end.

(** The integer nearest to [z] that a double holds, ties to the even
    significand: an integer of at most 53 bits is kept, a longer one keeps
    its 53 leading bits, rounded. *)
Definition round53 (z : Z) : Z :=
  let a := Z.abs z in
  let shift := (Z.log2 a + 1 - 53)%Z in
  if (shift <=? 0)%Z then z
  else
    let q := (a / 2 ^ shift)%Z in
    let r := (a mod 2 ^ shift)%Z in
    let half := (2 ^ (shift - 1))%Z in
    let q' := if (half <? r)%Z || ((r =? half)%Z && Z.odd q) then (q + 1)%Z else q in
    (Z.sgn z * (q' * 2 ^ shift))%Z.

(** The number value of the integer [z]: the nearest double, an infinity
    from 2^1024 on. *)
Definition toNumber (z : Z) : number :=
  let r := round53 z in
  if (2 ^ 1024 <=? Z.abs r)%Z then Infinity (r <? 0)%Z else Int r.

Definition hex_digit (c : ascii) : option Z :=
  let n := Z.of_nat (nat_of_ascii c) in
  if (48 <=? n)%Z && (n <=? 57)%Z then Some (n - 48)%Z
  else if (97 <=? n)%Z && (n <=? 102)%Z then Some (n - 87)%Z
  else if (65 <=? n)%Z && (n <=? 70)%Z then Some (n - 55)%Z
  else None.

(** The longest prefix of hexadecimal digits, read as an integer;
    [None] when [s] starts with no digit. *)
Fixpoint hex_prefix (acc : option Z) (s : string) : option Z :=
  match s with
  | EmptyString => acc
  | String c r =>
      match hex_digit c with
      | Some d =>
          hex_prefix (Some (16 * match acc with Some a => a | None => 0 end + d)%Z) r
      | None => acc
      end
  end.

Definition strip_0x (s : string) : string :=
  match s with
  | String "0" (String "x" r) => r
  | String "0" (String "X" r) => r
  | _ => s
  end.

(** [Number.parseInt(s, 16)]: leading white space is skipped, then an
    optional sign, then an optional [0x]; the digits that follow are read
    up to the first character that is not one. *)
Definition parseInt16 (s : string) : number :=
  let s1 := trimStart s in
  let '(neg, s2) :=
    match s1 with
    | String "-" r => (true, r)
    | String "+" r => (false, r)
    | _ => (false, s1)
    end in
  match hex_prefix None (strip_0x s2) with
  | None => NaN
  | Some z => toNumber (if neg then (- z)%Z else z)
  end.

(** [n.toString(16)] for a natural number. *)
Definition toString16 (n : N) : string :=
  match n with
  | N0 => "0"
  | Npos p => HexString.Raw.of_pos p EmptyString
  end.

End Js.

(** ** What handlers do to the outside world, and how promises settle *)

(** The fields of a thrown value that the code inspects. *)
Record JsError : Type := mkJsError {
  code : option Z;
  reason : option string;
  message : option string
}.

(** [e.code === z]; a [code] that is absent or not a number is [None]. *)
Definition code_is (z : Z) (e : JsError) : bool :=
  match code e with
  | Some c => Z.eqb c z
  | None => false
  end.

(** The way an awaited call, or an [async] function, settles. *)
Inductive settled (A : Type) : Type :=
| Resolves (a : A)
| Throws (e : JsError).
Arguments Resolves {A} a.
Arguments Throws {A} e.

(** The chain descriptor passed to [wallet_addEthereumChain]. *)
Record ChainDescriptor : Type := mkChainDescriptor {
  cd_chainId : string;
  cd_chainName : string;
  cd_currencyName : string;
  cd_currencySymbol : string;
  cd_currencyDecimals : Z;
  cd_rpcUrls : list string;
  cd_blockExplorerUrls : list string
}.

(** The calls to [window.ethereum.request]. *)
Inductive RpcRequest : Type :=
| eth_requestAccounts
| wallet_switchEthereumChain (chainIdHex : string)
| wallet_addEthereumChain (descriptor : ChainDescriptor).

(** What a handler makes visible outside the React state: the title of a
    toast (and whether its variant is "destructive"), a request sent to the
    wallet, a page reload. *)
Inductive Effect : Type :=
| Toast (title : string) (destructive : bool)
| Request (r : RpcRequest)
| Reload.

(** ** The chain session: [components/web3-provider.tsx] *)
Module Web3.

Definition contractAddress : string :=
  "0xAa35AA4dDfbB5A817F480378b45C09B7D90F2B5E".

Definition REQUIRED_CHAIN_ID : Z := 656476.

(** The [ethers] handles. A [BrowserProvider] wraps [window.ethereum]; a
    signer is bound to one account, and [getAddress] returns it; a
    contract is bound to its address (the ABI is fixed) and its signer. *)
Inductive BrowserProvider : Type := browserProvider.

Record Signer : Type := mkSigner { getAddress : string }.

Record Contract : Type := mkContract {
  target : string;
  runner : Signer
}.

(** The [useState] cells of [Web3Provider]. *)
Record State : Type := mkState {
  provider : option BrowserProvider;
  signer : option Signer;
  contract : option Contract;
  address : option string;
  isConnecting : bool;
  chainId : option Js.number;
  networkName : option string;
  isCorrectNetwork : bool
}.

Definition initial : State :=
  {| provider := None; signer := None; contract := None; address := None;
     isConnecting := false; chainId := None; networkName := None;
     isCorrectNetwork := false |}.

(** [provider.getNetwork()] *)
Record Network : Type := mkNetwork {
  net_chainId : Z;
  net_name : string
}.

(** The outside world during one run of a handler: whether
    [window.ethereum] is there, and how each awaited call settles. *)
Record World : Type := mkWorld {
  ethereum : bool;
  request : RpcRequest -> settled unit;
  getNetwork : settled Network;
  listAccounts : settled (list Signer);
  getSigner : settled Signer
}.

(** The value thrown when [request] is read off an undefined
    [window.ethereum]. *)
Definition typeError : JsError :=
  {| code := None; reason := None;
     message := Some "Cannot read properties of undefined (reading 'request')" |}.

Definition ethereum_request (w : World) (r : RpcRequest) : settled unit :=
  if ethereum w then request w r else Throws typeError.

(** What a handler returns: the next state, how its promise settles, and
    the effects in the order they happen. *)
Record Run (A : Type) : Type := mkRun {
  next : State;
  outcome : settled A;
  effects : list Effect
}.
Arguments mkRun {A} next outcome effects.
Arguments next {A} r.
Arguments outcome {A} r.
Arguments effects {A} r.

Definition is_required (n : Js.number) : bool :=
  Js.strict_eq n (Js.Int REQUIRED_CHAIN_ID).

(** The three setters after a network read. *)
Definition set_network (n : Network) (s : State) : State :=
  {| provider := provider s; signer := signer s; contract := contract s;
     address := address s; isConnecting := isConnecting s;
     chainId := Some (Js.Int (net_chainId n));
     networkName := Some (net_name n);
     isCorrectNetwork := is_required (Js.Int (net_chainId n)) |}.

(** [setSigner(signer); setAddress(address)], then [setContract] on the
    required chain only. *)
Definition set_account (n : Network) (sg : Signer) (s : State) : State :=
  {| provider := provider s;
     signer := Some sg;
     contract := if is_required (Js.Int (net_chainId n))
                 then Some (mkContract contractAddress sg)
                 else contract s;
     address := Some (getAddress sg);
     isConnecting := isConnecting s;
     chainId := chainId s; networkName := networkName s;
     isCorrectNetwork := isCorrectNetwork s |}.

Definition set_isConnecting (b : bool) (s : State) : State :=
  {| provider := provider s; signer := signer s; contract := contract s;
     address := address s; isConnecting := b; chainId := chainId s;
     networkName := networkName s; isCorrectNetwork := isCorrectNetwork s |}.

(** [setSigner(null); setAddress(null); setContract(null)] *)
Definition clear_account (s : State) : State :=
  {| provider := provider s; signer := None; contract := None;
     address := None; isConnecting := isConnecting s; chainId := chainId s;
     networkName := networkName s; isCorrectNetwork := isCorrectNetwork s |}.

(** [checkConnection], called by the mount effect. Every failure is
    caught and logged; the setters already called stay in force. *)
Definition checkConnection (w : World) (s : State) : State :=
  match getNetwork w with
  | Throws _ => s
  | Resolves n =>
      let s1 := set_network n s in
      match listAccounts w with
      | Throws _ => s1
      | Resolves accounts =>
          if Nat.ltb 0 (length accounts) then
            match getSigner w with
            | Throws _ => s1
            | Resolves sg => set_account n sg s1
            end
          else s1
      end
  end.

(** The body of the mount effect. *)
Definition mount (w : World) (s : State) : State :=
  if ethereum w then
    checkConnection w
      {| provider := Some browserProvider; signer := signer s;
         contract := contract s; address := address s;
         isConnecting := isConnecting s; chainId := chainId s;
         networkName := networkName s;
         isCorrectNetwork := isCorrectNetwork s |}
  else s.

(** [connectWallet]. [p] is the [provider] cell as the render that
    created this closure saw it. *)
Definition connectWallet (p : option BrowserProvider) (w : World) (s : State)
  : Run (option string) :=
  match p with
  | None => mkRun s (Resolves None) [Toast "No provider found" true]
  | Some _ =>
      let failed (s' : State) (e : JsError) (pre : list Effect) :=
        mkRun (set_isConnecting false s') (Throws e)
              (pre ++ [Toast "Connection failed" true]) in
      let s0 := set_isConnecting true s in
      match ethereum_request w eth_requestAccounts with
      | Throws e => failed s0 e (if ethereum w then [Request eth_requestAccounts] else [])
      | Resolves _ =>
          match getNetwork w with
          | Throws e => failed s0 e [Request eth_requestAccounts]
          | Resolves n =>
              let s1 := set_network n s0 in
              match getSigner w with
              | Throws e => failed s1 e [Request eth_requestAccounts]
              | Resolves sg =>
                  mkRun (set_isConnecting false (set_account n sg s1))
                        (Resolves (Some (getAddress sg)))
                        [Request eth_requestAccounts;
                         if is_required (Js.Int (net_chainId n))
                         then Toast "Wallet connected!" false
                         else Toast "Wrong network" true]
              end
          end
      end
  end.

(** A call of [connectWallet] from the current render. *)
Definition connect (w : World) (s : State) : Run (option string) :=
  connectWallet (provider s) w s.

(** [disconnectWallet]: local state only. *)
Definition disconnectWallet (s : State) : Run bool :=
  mkRun (clear_account s) (Resolves true) [Toast "Wallet disconnected" false].

(** [handleAccountsChanged]. The handler is created by the mount effect,
    so the [connectWallet] it calls is the one of the render in which that
    effect ran; [p] is the [provider] cell of that render. The promise of
    [connectWallet] is dropped. *)
Definition handleAccountsChanged (p : option BrowserProvider)
    (accounts : list string) (w : World) (s : State) : State * list Effect :=
  if Nat.eqb (length accounts) 0
  then (clear_account s, [Toast "Wallet disconnected" true])
  else let r := connectWallet p w s in (next r, effects r).

(** [handleChainChanged] *)
Definition handleChainChanged (chainIdHex : string) (s : State)
  : State * list Effect :=
  let newChainId := Js.parseInt16 chainIdHex in
  ({| provider := provider s; signer := signer s; contract := contract s;
      address := address s; isConnecting := isConnecting s;
      chainId := Some newChainId;
      networkName := networkName s;
      isCorrectNetwork := is_required newChainId |},
   [Reload]).

Definition requiredChainHex : string :=
  "0x" ++ Js.toString16 (Z.to_N REQUIRED_CHAIN_ID).

Definition chainDescriptor : ChainDescriptor :=
  {| cd_chainId := requiredChainHex;
     cd_chainName := "Open Campus Codex";
     cd_currencyName := "OCC Token";
     cd_currencySymbol := "OCC";
     cd_currencyDecimals := 18;
     cd_rpcUrls := ["https://rpc.open-campus-codex.gelato.digital/"];
     cd_blockExplorerUrls := ["https://explorer.open-campus-codex.gelato.digital/"] |}.

(** [switchNetwork]: the state is not touched; every failure is caught and
    shown, the promise resolves in all cases. *)
Definition switchNetwork (w : World) : list Effect :=
  if ethereum w then
    let switch := wallet_switchEthereumChain requiredChainHex in
    match request w switch with
    | Resolves _ => [Request switch]
    | Throws switchError =>
        if code_is 4902 switchError then
          let add := wallet_addEthereumChain chainDescriptor in
          match request w add with
          | Resolves _ => [Request switch; Request add]
          | Throws _ =>
              [Request switch; Request add; Toast "Network switch failed" true]
          end
        else [Request switch; Toast "Network switch failed" true]
    end
  else [Toast "No provider found" true].

(** *** The session as a transition system *)

Inductive Event : Type :=
| PageLoad (w : World)
| EffectRun (w : World)
| ConnectWallet (w : World)
| DisconnectWallet
| AccountsChanged (p : option BrowserProvider) (accounts : list string) (w : World)
| ChainChanged (chainIdHex : string)
| SwitchNetwork (w : World).

(** [PageLoad] is a fresh page (first load, or the reload that follows a
    chain change): the cells take their initial values and the mount
    effect runs. [EffectRun] is the mount effect running again on the
    living page, when its dependency [toast] changes. *)
Definition step (s : State) (ev : Event) : State :=
  match ev with
  | PageLoad w => mount w initial
  | EffectRun w => mount w s
  | ConnectWallet w => next (connect w s)
  | DisconnectWallet => next (disconnectWallet s)
  | AccountsChanged p accounts w => fst (handleAccountsChanged p accounts w s)
  | ChainChanged h => fst (handleChainChanged h s)
  | SwitchNetwork _ => s
  end.

Definition run (evs : list Event) : State := fold_left step evs initial.

Definition reachable (s : State) : Prop := exists evs, s = run evs.

End Web3.

(** ** The user identity: the auth provider *)
Module Auth.

Inductive AccountType : Type := student | institution.

(** [interface User]. An optional field that is absent, or present with
    the value [undefined], is [None]. *)
Record User : Type := mkUser {
  id : string;
  name : string;
  email : option string;
  accountType : AccountType;
  walletAddress : option string
}.

(** The [useState] cells of [AuthProvider]. *)
Record State : Type := mkState {
  user : option User;
  isLoading : bool
}.

Definition initial : State := {| user := None; isLoading := true |}.

(** The application: the chain session that [useWeb3] hands to the auth
    provider, the auth cells, and the browser's local storage. A slot of
    the storage holds the JSON text of a [User]; [JSON.stringify] leaves
    out the fields that are [undefined] and every [User] built here lists
    its keys in the order of the interface, so the text and the record
    determine each other and the slot is modelled by the record. *)
Record App : Type := mkApp {
  web3 : Web3.State;
  auth : State;
  localStorage : gmap string User
}.

Definition STORAGE_KEY : string := "eduverify_user".

Record Run (A : Type) : Type := mkRun {
  app : App;
  outcome : settled A;
  effects : list Effect
}.
Arguments mkRun {A} app outcome effects.
Arguments app {A} r.
Arguments outcome {A} r.
Arguments effects {A} r.

Definition set_user (u : option User) (a : App) : App :=
  {| web3 := web3 a;
     auth := {| user := u; isLoading := isLoading (auth a) |};
     localStorage := localStorage a |}.

Definition set_isLoading (b : bool) (a : App) : App :=
  {| web3 := web3 a;
     auth := {| user := user (auth a); isLoading := b |};
     localStorage := localStorage a |}.

(** [localStorage.setItem("eduverify_user", JSON.stringify(u))] *)
Definition setItem (u : User) (a : App) : App :=
  {| web3 := web3 a; auth := auth a;
     localStorage := <[STORAGE_KEY := u]> (localStorage a) |}.

(** [localStorage.removeItem("eduverify_user")] *)
Definition removeItem (a : App) : App :=
  {| web3 := web3 a; auth := auth a;
     localStorage := delete STORAGE_KEY (localStorage a) |}.

Definition set_web3 (s : Web3.State) (a : App) : App :=
  {| web3 := s; auth := auth a; localStorage := localStorage a |}.

(** [{ ...u, walletAddress: w }] *)
Definition with_walletAddress (w : option string) (u : User) : User :=
  {| id := id u; name := name u; email := email u;
     accountType := accountType u; walletAddress := w |}.

(** [{ ...u, accountType: t }] *)
Definition with_accountType (t : AccountType) (u : User) : User :=
  {| id := id u; name := name u; email := email u;
     accountType := t; walletAddress := walletAddress u |}.

(** [if (address) { user.walletAddress = address }] *)
Definition link_if_connected (address : option string) (u : User) : User :=
  if Js.truthy_opt address then with_walletAddress address u else u.

Definition noUserError : JsError :=
  {| code := None; reason := None; message := Some "No user logged in" |}.

(** [checkSession], the effect that runs once on load. *)
Definition checkSession (a : App) : App :=
  set_isLoading false
    match localStorage a !! STORAGE_KEY with
    | Some parsedUser => set_user (Some parsedUser) a
    | None => a
    end.

(** [linkWallet] *)
Definition linkWallet (walletAddress : string) (a : App) : Run unit :=
  match user (auth a) with
  | None => mkRun a (Throws noUserError) [Toast "Wallet linking failed" true]
  | Some u =>
      let updatedUser := with_walletAddress (Some walletAddress) u in
      mkRun (setItem updatedUser (set_user (Some updatedUser) a))
            (Resolves tt) [Toast "Wallet linked" false]
  end.

(** [handleWalletConnection], the effect that runs when the session's
    [address] or [isLoading] changes. Its promise is dropped. *)
Definition handleWalletConnection (a : App) : App * list Effect :=
  match Web3.address (web3 a) with
  | Some address =>
      if Js.truthy address && negb (isLoading (auth a)) then
        match localStorage a !! STORAGE_KEY with
        | Some parsedUser =>
            if negb (Js.truthy_opt (walletAddress parsedUser))
               || negb (bool_decide (walletAddress parsedUser = Some address))
            then let r := linkWallet address a in (app r, effects r)
            else (a, [])
        | None =>
            let newUser :=
              {| id := "wallet-" ++ address;
                 name := "User " ++ Js.slice 0 6 address;
                 email := None;
                 accountType := student;
                 walletAddress := Some address |} in
            (setItem newUser (set_user (Some newUser) a),
             [Toast "Wallet account created" false])
        end
      else (a, [])
  | None => (a, [])
  end.

(** [login]. [random_id] is the value of
    [Math.random().toString(36).substring(2, 9)]. *)
Definition login (random_id : string) (email password : string) (a : App)
  : Run unit :=
  let isInstitution := Js.includes email "institution" in
  let user :=
    {| id := random_id;
       name := if isInstitution
               then Js.split0 "@" email ++ " University"
               else Js.split0 "@" email;
       email := Some email;
       accountType := if isInstitution then institution else student;
       walletAddress := None |} in
  let user := link_if_connected (Web3.address (web3 a)) user in
  mkRun (set_isLoading false (setItem user (set_user (Some user) (set_isLoading true a))))
        (Resolves tt) [Toast "Login successful" false].

(** The payload of [register] ([userData: any]), with the fields its two
    callers pass. *)
Record UserData : Type := mkUserData {
  ud_name : string;
  ud_email : option string;
  ud_password : option string;
  ud_accountType : AccountType;
  ud_walletAddress : option string
}.

(** [register] *)
Definition register (random_id : string) (userData : UserData) (a : App)
  : Run unit :=
  let user :=
    {| id := random_id;
       name := ud_name userData;
       email := ud_email userData;
       accountType := ud_accountType userData;
       walletAddress := None |} in
  let user := link_if_connected (Web3.address (web3 a)) user in
  mkRun (set_isLoading false (setItem user (set_user (Some user) (set_isLoading true a))))
        (Resolves tt) [Toast "Registration successful" false].

(** [disconnectWallet] of the auth provider (the spec's unlink). *)
Definition disconnectWallet (a : App) : Run unit :=
  match user (auth a) with
  | None => mkRun a (Resolves tt) []
  | Some u =>
      let w := Web3.disconnectWallet (web3 a) in
      let updatedUser := with_walletAddress None u in
      mkRun (setItem updatedUser (set_user (Some updatedUser) (set_web3 (Web3.next w) a)))
            (Resolves tt)
            (Web3.effects w ++ [Toast "Wallet disconnected" false])
  end.

(** [updateAccountType] *)
Definition updateAccountType (t : AccountType) (a : App) : Run unit :=
  match user (auth a) with
  | None => mkRun a (Throws noUserError) [Toast "Update failed" true]
  | Some u =>
      let updatedUser := with_accountType t u in
      mkRun (setItem updatedUser (set_user (Some updatedUser) a))
            (Resolves tt) [Toast "Account type updated" false]
  end.

(** [logout] *)
Definition logout (a : App) : Run unit :=
  let linked :=
    match user (auth a) with
    | Some u => Js.truthy_opt (walletAddress u)
    | None => false
    end in
  let w := Web3.disconnectWallet (web3 a) in
  let a1 := if linked then set_web3 (Web3.next w) a else a in
  mkRun (removeItem (set_user None a1)) (Resolves tt)
        ((if linked then Web3.effects w else []) ++ [Toast "Logged out" false]).

End Auth.

(** ** The credential pages *)
Module Pages.

(** The tuple returned by [verifyCertificate]. *)
Record Details : Type := mkDetails {
  d_studentName : string;
  d_degree : string;
  d_university : string;
  d_ipfsHash : string
}.

(** [interface Credential]; the reputation page has no
    [recipientAddress]. [cred_id] is [Number(tokenId)]: a token id is a
    [uint256], far below 2^1024, so that the double nearest to it is an
    integer. *)
Record Credential : Type := mkCredential {
  cred_id : Z;
  studentName : string;
  degree : string;
  university : string;
  ipfsHash : string;
  recipientAddress : option string
}.

(** How the read methods of the bound contract settle. *)
Record Calls : Type := mkCalls {
  getIssuedCertificates : string -> settled (list Z);
  balanceOf : string -> settled Z;
  tokenOfOwnerByIndex : string -> Z -> settled Z;
  verifyCertificate : Z -> settled Details;
  ownerOf : Z -> settled string
}.

(** The cells of a credential page. *)
Record View : Type := mkView {
  credentials : list Credential;
  reputationScore : Z;
  isLoading : bool;
  error : option string
}.

Definition emptyView : View :=
  {| credentials := []; reputationScore := 0; isLoading := false; error := None |}.

(** *** The issued-credentials page *)

(** One turn of the loop of [fetchIssuedCredentials]: the [try] block
    pushes the credential, the [catch] only logs. *)
Definition issued_turn (c : Calls) (credentialsList : list Credential)
    (tokenId : Z) : list Credential :=
  match verifyCertificate c tokenId with
  | Throws _ => credentialsList
  | Resolves details =>
      match ownerOf c tokenId with
      | Throws _ => credentialsList
      | Resolves owner =>
          credentialsList ++
          [{| cred_id := Js.round53 tokenId;
              studentName := d_studentName details;
              degree := d_degree details;
              university := d_university details;
              ipfsHash := d_ipfsHash details;
              recipientAddress := Some owner |}]
      end
  end.

(** [for (let i = 0; i < issuedTokenIds.length; i++)] *)
Definition issued_loop (c : Calls) (issuedTokenIds : list Z) : list Credential :=
  fold_left (issued_turn c) issuedTokenIds [].

(** [fetchIssuedCredentials]; [accountType] is [user?.accountType]. *)
Definition fetchIssuedCredentials (c : Calls)
    (address : option string) (isCorrectNetwork : bool)
    (contract : option Web3.Contract) (accountType : option Auth.AccountType)
    (v : View) : View :=
  match address, contract, accountType with
  | Some a, Some _, Some Auth.institution =>
      if Js.truthy a && isCorrectNetwork then
        match getIssuedCertificates c a with
        | Throws _ =>
            {| credentials := credentials v; reputationScore := reputationScore v;
               isLoading := false;
               error := Some "Failed to fetch issued credential data. Please try again." |}
        | Resolves issuedTokenIds =>
            {| credentials :=
                 if Nat.eqb (length issuedTokenIds) 0 then []
                 else issued_loop c issuedTokenIds;
               reputationScore := reputationScore v;
               isLoading := false; error := None |}
        end
      else v
  | _, _, _ => v
  end.

(** *** The reputation page *)

(** One turn of the loop of [fetchCredentials], at index [i]. *)
Definition owned_turn (c : Calls) (address : string)
    (credentialsList : list Credential) (i : nat) : list Credential :=
  match tokenOfOwnerByIndex c address (Z.of_nat i) with
  | Throws _ => credentialsList
  | Resolves tokenId =>
      match verifyCertificate c tokenId with
      | Throws _ => credentialsList
      | Resolves details =>
          credentialsList ++
          [{| cred_id := Js.round53 tokenId;
              studentName := d_studentName details;
              degree := d_degree details;
              university := d_university details;
              ipfsHash := d_ipfsHash details;
              recipientAddress := None |}]
      end
  end.

(** [for (let i = 0; i < count; i++)] *)
Definition owned_loop (c : Calls) (address : string) (count : Z) : list Credential :=
  fold_left (owned_turn c address) (seq 0 (Z.to_nat count)) [].

Definition universityBonus (credentialsList : list Credential) : Z :=
  fold_left (fun acc cred =>
               if Js.includes (Js.toLowerCase (university cred)) "university"
               then (acc + 5)%Z else acc)
            credentialsList 0%Z.

Definition degreeBonus (credentialsList : list Credential) : Z :=
  fold_left (fun acc cred =>
               let d := Js.toLowerCase (degree cred) in
               if Js.includes d "master" || Js.includes d "phd" then (acc + 10)%Z
               else if Js.includes d "bachelor" then (acc + 5)%Z
               else acc)
            credentialsList 0%Z.

(** [fetchCredentials] of the reputation page. *)
Definition fetchCredentials (c : Calls)
    (address : option string) (isCorrectNetwork : bool)
    (contract : option Web3.Contract) (v : View) : View :=
  match address, contract with
  | Some a, Some _ =>
      if Js.truthy a && isCorrectNetwork then
        match balanceOf c a with
        | Throws _ =>
            {| credentials := credentials v; reputationScore := reputationScore v;
               isLoading := false;
               error := Some "Failed to fetch credential data. Please try again." |}
        | Resolves count =>
            if Z.eqb count 0 then
              {| credentials := []; reputationScore := 0;
                 isLoading := false; error := None |}
            else
              let credentialsList := owned_loop c a count in
              {| credentials := credentialsList;
                 reputationScore :=
                   (count * 10 + universityBonus credentialsList
                    + degreeBonus credentialsList)%Z;
                 isLoading := false; error := None |}
        end
      else v
  | _, _ => v
  end.

(** *** The message shown when a contract call fails

    The [catch] blocks of [onSubmit] on the issue page and on the verify
    page differ in the default text only. *)
Definition errorMessage (default : string) (error : JsError) : string :=
  if Js.truthy_opt (reason error) then
    match reason error with Some r => r | None => default end
  else if Js.truthy_opt (message error) then
    match message error with
    | Some m => Js.trim (Js.split0 "(" m)
    | None => default
    end
  else default.

Definition issue_default : string :=
  "There was an error issuing the credential. Please try again.".

Definition verify_default : string :=
  "The credential could not be verified. It may not exist or there was an error.".

Definition issue_errorMessage : JsError -> string := errorMessage issue_default.
Definition verify_errorMessage : JsError -> string := errorMessage verify_default.

End Pages.


(** ** Vocabulary of the properties, and sample data *)
Module Props.

(** *** Strings *)

(** Every code unit of [s] is white space. *)
Fixpoint all_ws (s : string) : bool :=
  match s with
  | EmptyString => true
  | String c r => Js.is_ws c && all_ws r
  end.

(** [c] does not occur in [s]. *)
Fixpoint free_of (c : ascii) (s : string) : bool :=
  match s with
  | EmptyString => true
  | String d r => negb (Ascii.eqb d c) && free_of c r
  end.

Definition first_unit (s : string) : option ascii :=
  match s with
  | EmptyString => None
  | String c _ => Some c
  end.

Fixpoint last_unit (s : string) : option ascii :=
  match s with
  | EmptyString => None
  | String c EmptyString => Some c
  | String _ r => last_unit r
  end.

Definition ws_unit (o : option ascii) : bool :=
  match o with
  | Some c => Js.is_ws c
  | None => false
  end.

(** [t] is [s] without the white space at its two ends. *)
Definition trimmed_of (s t : string) : Prop :=
  (exists l r, s = l ++ t ++ r /\ all_ws l = true /\ all_ws r = true)
  /\ ws_unit (first_unit t) = false
  /\ ws_unit (last_unit t) = false.

(** [p] is the part of [s] before the first [sep], all of [s] when there
    is none. *)
Definition before_first (sep : ascii) (s p : string) : Prop :=
  free_of sep p = true /\ (s = p \/ exists r, s = p ++ String sep r).

(** [sub] occurs in [s]. *)
Definition occurs_in (sub s : string) : Prop :=
  exists pre post, s = pre ++ sub ++ post.

(** *** The chain session *)

(** [Request] effects, in order. *)
Fixpoint requests (effs : list Effect) : list RpcRequest :=
  match effs with
  | [] => []
  | Request r :: rest => r :: requests rest
  | _ :: rest => requests rest
  end.

(** The network read of [w] fails or reports chain [c]. *)
Definition reports (c : Z) (w : Web3.World) : bool :=
  match Web3.getNetwork w with
  | Throws _ => true
  | Resolves n => Z.eqb (Web3.net_chainId n) c
  end.

(** The wallet is on chain [c] when [ev] happens, and [ev] is not a
    change of chain. *)
Definition stays_on (c : Z) (ev : Web3.Event) : bool :=
  match ev with
  | Web3.PageLoad w | Web3.EffectRun w | Web3.ConnectWallet w
  | Web3.AccountsChanged _ _ w => reports c w
  | Web3.DisconnectWallet | Web3.SwitchNetwork _ => true
  | Web3.ChainChanged _ => false
  end.

(** The network gating of the contract handle. *)
Definition gating (s : Web3.State) : Prop :=
  Web3.contract s <> None <->
  Web3.chainId s = Some (Js.Int Web3.REQUIRED_CHAIN_ID) /\ Web3.address s <> None.

(** The six session fields of the spec's data model agree. *)
Definition same_session (s s' : Web3.State) : Prop :=
  Web3.provider s' = Web3.provider s /\ Web3.signer s' = Web3.signer s
  /\ Web3.contract s' = Web3.contract s /\ Web3.address s' = Web3.address s
  /\ Web3.chainId s' = Web3.chainId s /\ Web3.networkName s' = Web3.networkName s.

(** What holds of the session as long as the wallet stays on chain [c]. *)
Definition steady (c : Z) (s : Web3.State) : Prop :=
  (Web3.chainId s = None \/ Web3.chainId s = Some (Js.Int c))
  /\ (Web3.address s <> None -> Web3.chainId s = Some (Js.Int c))
  /\ (Web3.contract s <> None <-> Web3.address s <> None /\ c = Web3.REQUIRED_CHAIN_ID)
  /\ (Web3.signer s <> None <-> Web3.address s <> None).

(** What holds of every session. *)
Definition bound (s : Web3.State) : Prop :=
  (Web3.contract s <> None -> Web3.address s <> None)
  /\ (Web3.signer s <> None <-> Web3.address s <> None).

(** The chain a page load sees. *)
Definition chain_seen (w : Web3.World) : Z :=
  match Web3.getNetwork w with
  | Resolves n => Web3.net_chainId n
  | Throws _ => 0%Z
  end.

(** *** Sample data *)

Definition alice : Web3.Signer :=
  Web3.mkSigner "0x71C7656EC7ab88b098defB751B7401B5f6d8976F".

(** A wallet on chain [c] with one authorised account, which grants
    every request. *)
Definition wallet_on (c : Z) (name : string) : Web3.World :=
  {| Web3.ethereum := true;
     Web3.request := fun _ => Resolves tt;
     Web3.getNetwork := Resolves (Web3.mkNetwork c name);
     Web3.listAccounts := Resolves [alice];
     Web3.getSigner := Resolves alice |}.

Definition codex : Web3.World := wallet_on Web3.REQUIRED_CHAIN_ID "open-campus-codex".



Definition unknownChain : JsError :=
  {| code := Some 4902%Z; reason := None;
     message := Some "Unrecognized chain ID." |}.

(** A wallet on main net that does not know the required chain, and
    accepts to add it. *)
Definition mainnet_wallet : Web3.World :=
  {| Web3.ethereum := true;
     Web3.request := fun r =>
       match r with
       | wallet_switchEthereumChain _ => Throws unknownChain
       | _ => Resolves tt
       end;
     Web3.getNetwork := Resolves (Web3.mkNetwork 1 "mainnet");
     Web3.listAccounts := Resolves [alice];
     Web3.getSigner := Resolves alice |}.

(** The session of [alice] on the required chain, after a page load. *)
Definition connected : Web3.State := Web3.run [Web3.PageLoad codex].

(** *** The identity *)

(** The identity in force, and the one in the store. *)
Definition identity (a : Auth.App) : option Auth.User := Auth.user (Auth.auth a).

Definition stored (a : Auth.App) : option Auth.User :=
  Auth.localStorage a !! Auth.STORAGE_KEY.

(** A visitor with [alice] connected, the stored session checked, nobody
    logged in and an empty store. *)
Definition visitor : Auth.App :=
  {| Auth.web3 := connected;
     Auth.auth := {| Auth.user := None; Auth.isLoading := false |};
     Auth.localStorage := ∅ |}.

(** The same without a wallet. *)
Definition walletless : Auth.App :=
  {| Auth.web3 := Web3.initial;
     Auth.auth := {| Auth.user := None; Auth.isLoading := false |};
     Auth.localStorage := ∅ |}.

(** The visitor once logged in. *)
Definition member : Auth.App :=
  Auth.app (Auth.login "k3j9x2a" "a@school.org" "secret" visitor).

Definition newcomer : Auth.UserData :=
  {| Auth.ud_name := "Ada"; Auth.ud_email := Some "ada@school.org";
     Auth.ud_password := Some "secret-secret";
     Auth.ud_accountType := Auth.student; Auth.ud_walletAddress := None |}.

(** *** Batch reads *)

(** The credential of an issued token, when both of its lookups succeed. *)
Definition issued_credential (c : Pages.Calls) (tokenId : Z) : option Pages.Credential :=
  match Pages.verifyCertificate c tokenId, Pages.ownerOf c tokenId with
  | Resolves details, Resolves owner =>
      Some {| Pages.cred_id := Js.round53 tokenId;
              Pages.studentName := Pages.d_studentName details;
              Pages.degree := Pages.d_degree details;
              Pages.university := Pages.d_university details;
              Pages.ipfsHash := Pages.d_ipfsHash details;
              Pages.recipientAddress := Some owner |}
  | _, _ => None
  end.

Definition issued_ok (c : Pages.Calls) (tokenId : Z) : bool :=
  match Pages.verifyCertificate c tokenId, Pages.ownerOf c tokenId with
  | Resolves _, Resolves _ => true
  | _, _ => false
  end.

(** The credential at index [i] of an owner, when both of its lookups
    succeed. *)
Definition owned_credential (c : Pages.Calls) (address : string) (i : nat)
  : option Pages.Credential :=
  match Pages.tokenOfOwnerByIndex c address (Z.of_nat i) with
  | Resolves tokenId =>
      match Pages.verifyCertificate c tokenId with
      | Resolves details =>
          Some {| Pages.cred_id := Js.round53 tokenId;
                  Pages.studentName := Pages.d_studentName details;
                  Pages.degree := Pages.d_degree details;
                  Pages.university := Pages.d_university details;
                  Pages.ipfsHash := Pages.d_ipfsHash details;
                  Pages.recipientAddress := None |}
      | Throws _ => None
      end
  | Throws _ => None
  end.

Definition missingToken : JsError :=
  {| code := None; reason := Some "ERC721: invalid token ID";
     message := Some "execution reverted: ERC721: invalid token ID (action=call)" |}.

Definition diploma : Pages.Details :=
  {| Pages.d_studentName := "Ada"; Pages.d_degree := "Bachelor of Science";
     Pages.d_university := "Open University"; Pages.d_ipfsHash := "QmT5NvUtoM5n" |}.

(** A contract with the tokens 1, 2 and 3, where every lookup of token 2
    fails. *)
Definition three_tokens : Pages.Calls :=
  {| Pages.getIssuedCertificates := fun _ => Resolves [1; 2; 3]%Z;
     Pages.balanceOf := fun _ => Resolves 3%Z;
     Pages.tokenOfOwnerByIndex := fun _ i => Resolves (i + 1)%Z;
     Pages.verifyCertificate := fun tokenId =>
       if Z.eqb tokenId 2 then Throws missingToken else Resolves diploma;
     Pages.ownerOf := fun tokenId =>
       if Z.eqb tokenId 2 then Throws missingToken
       else Resolves (Web3.getAddress alice) |}.

(** A failure whose [reason] is the empty string. *)
Definition emptyReason : JsError :=
  {| code := None; reason := Some "";
     message := Some "execution reverted (action=call)" |}.

(** *** Numbers and pieces of strings *)

Definition MAX_SAFE_INTEGER : Z := 9007199254740991.

(** [z] is an integer that a double holds, as do its neighbours. *)
Definition safe (z : Z) : Prop := (Z.abs z <= MAX_SAFE_INTEGER)%Z.

(** [p] is the first [n] code units of [s], all of [s] when it has
    fewer. *)
Definition first_units (n : nat) (s p : string) : Prop :=
  exists rest, s = p ++ rest
               /\ (String.length p = n \/ (rest = "" /\ (String.length p <= n)%nat)).

(** [q] is the last [n] code units of [s], all of [s] when it has fewer. *)
Definition last_units (n : nat) (s q : string) : Prop :=
  exists pre, s = pre ++ q
              /\ (String.length q = n \/ (pre = "" /\ (String.length q <= n)%nat)).

End Props.

From Stdlib Require DecimalString.

(** ** More vocabulary: what the session keeps *)
Module Keeps.

(** [isCorrectNetwork] is the comparison of [chainId] with the required
    chain. *)
Definition derived (s : Web3.State) : Prop :=
  Web3.isCorrectNetwork s
  = match Web3.chainId s with
    | Some n => Web3.is_required n
    | None => false
    end.

(** [address] is the address of [signer]. *)
Definition signed (s : Web3.State) : Prop :=
  Web3.address s = Web3.getAddress <$> Web3.signer s.

(** The contract handle is at the fixed address and runs on the signer of
    the session. *)
Definition runs_on_signer (s : Web3.State) : Prop :=
  forall k, Web3.contract s = Some k ->
            Web3.target k = Web3.contractAddress
            /\ Web3.signer s = Some (Web3.runner k).

(** Each code unit of [s] is a hexadecimal digit on which the library's
    reading and [Js.hex_digit] agree. *)
Fixpoint hex_digits (s : string) : bool :=
  match s with
  | EmptyString => true
  | String c r =>
      match HexString.ascii_to_digit c, Js.hex_digit c with
      | Some v, Some d => Z.eqb d (Z.of_N v) && hex_digits r
      | _, _ => false
      end
  end.

End Keeps.

(** ** The identity as a transition system *)
Module Identity.
Import Auth.

(** [linkWallet] as created by a render in which the [user] cell held
    [closure]: the spread reads that value, the setters act on the state of
    the moment. *)
Definition linkWalletFrom (closure : option User) (walletAddress : string) (a : App)
  : Run unit :=
  match closure with
  | None => mkRun a (Throws noUserError) [Toast "Wallet linking failed" true]
  | Some u =>
      let updatedUser := with_walletAddress (Some walletAddress) u in
      mkRun (setItem updatedUser (set_user (Some updatedUser) a))
            (Resolves tt) [Toast "Wallet linked" false]
  end.

(** [updateAccountType] as created by a render in which the [user] cell
    held [closure]. *)
Definition updateAccountTypeFrom (closure : option User) (t : AccountType) (a : App)
  : Run unit :=
  match closure with
  | None => mkRun a (Throws noUserError) [Toast "Update failed" true]
  | Some u =>
      let updatedUser := with_accountType t u in
      mkRun (setItem updatedUser (set_user (Some updatedUser) a))
            (Resolves tt) [Toast "Account type updated" false]
  end.

(** A reload of the page: the cells of both providers take their initial
    values, the local storage stays. *)
Definition reload (a : App) : App :=
  {| web3 := Web3.initial; auth := initial; localStorage := localStorage a |}.

(** What can happen to the application. [LinkWallet] and
    [UpdateAccountType] carry the [user] their closure saw, which is the
    current one unless the call comes late in a handler. *)
Inductive Event : Type :=
| CheckSession
| WalletEffect
| Login (random_id email password : string)
| Register (random_id : string) (userData : UserData)
| LinkWallet (closure : option User) (walletAddress : string)
| DisconnectWallet
| UpdateAccountType (closure : option User) (t : AccountType)
| Logout
| Session (ev : Web3.Event).

Definition step (a : App) (ev : Event) : App :=
  match ev with
  | CheckSession => checkSession a
  | WalletEffect => fst (handleWalletConnection a)
  | Login random_id email password => app (login random_id email password a)
  | Register random_id userData => app (register random_id userData a)
  | LinkWallet closure walletAddress => app (linkWalletFrom closure walletAddress a)
  | DisconnectWallet => app (disconnectWallet a)
  | UpdateAccountType closure t => app (updateAccountTypeFrom closure t a)
  | Logout => app (logout a)
  | Session ev => set_web3 (Web3.step (web3 a) ev) a
  end.

(** A visit: the page loads over the store [ls] left by earlier visits,
    and events follow. *)
Definition start (ls : gmap string User) : App :=
  {| web3 := Web3.initial; auth := initial; localStorage := ls |}.

Definition run (ls : gmap string User) (evs : list Event) : App :=
  fold_left step evs (start ls).

(** The store holds the identity in force. *)
Definition synced (a : App) : Prop :=
  localStorage a !! STORAGE_KEY = user (auth a).

(** An event of the identity, not of the session. *)
Definition of_identity (ev : Event) : bool :=
  match ev with
  | Session _ => false
  | _ => true
  end.

End Identity.

(** ** The other pages that read credentials *)
Module Reads.
Import Pages.

(** [fetchCredentials] of the credentials page and of the resume page (the
    two bodies are the same text): the loop of the reputation page, without
    the score. *)
Definition listCredentials (c : Calls)
    (address : option string) (isCorrectNetwork : bool)
    (contract : option Web3.Contract) (v : View) : View :=
  match address, contract with
  | Some a, Some _ =>
      if Js.truthy a && isCorrectNetwork then
        match balanceOf c a with
        | Throws _ =>
            {| credentials := credentials v; reputationScore := reputationScore v;
               isLoading := false;
               error := Some "Failed to fetch credential data. Please try again." |}
        | Resolves count =>
            {| credentials := if Z.eqb count 0 then [] else owned_loop c a count;
               reputationScore := reputationScore v;
               isLoading := false; error := None |}
        end
      else v
  | _, _ => v
  end.

(** The cells of the dashboard. *)
Record Dashboard : Type := mkDashboard {
  credentialCount : option Z;
  score : Z;
  loading : bool;
  failure : option string
}.

Definition emptyDashboard : Dashboard :=
  {| credentialCount := None; score := 0; loading := false; failure := None |}.

(** [fetchCredentials] of the dashboard. *)
Definition countCredentials (c : Calls)
    (address : option string) (isCorrectNetwork : bool)
    (contract : option Web3.Contract) (d : Dashboard) : Dashboard :=
  match address, contract with
  | Some a, Some _ =>
      if Js.truthy a && isCorrectNetwork then
        match balanceOf c a with
        | Throws _ =>
            {| credentialCount := None; score := score d; loading := false;
               failure := Some "Failed to fetch credential data. Please try again." |}
        | Resolves count =>
            {| credentialCount := Some count; score := (count * 10)%Z;
               loading := false; failure := None |}
        end
      else d
  | _, _ => d
  end.

(** A contract whose owner holds three tokens, the second of which cannot
    be read, and whose every read fails for another owner. *)
Definition flaky : Calls :=
  {| getIssuedCertificates := fun _ => Throws Props.missingToken;
     balanceOf := fun a =>
       if String.eqb a (Web3.getAddress Props.alice) then Resolves 3%Z
       else Throws Props.missingToken;
     tokenOfOwnerByIndex := fun _ i => Resolves (i + 1)%Z;
     verifyCertificate := fun tokenId =>
       if Z.eqb tokenId 2 then Throws Props.missingToken else Resolves Props.diploma;
     ownerOf := fun _ => Resolves (Web3.getAddress Props.alice) |}.

Definition aliceContract : Web3.Contract :=
  Web3.mkContract Web3.contractAddress Props.alice.

End Reads.

(** ** The handlers of the pages that act on the identity *)
Module Handlers.
Import Auth.

(** What a handler leaves behind: the application, the toasts and the
    requests in the order they happen, and the routes pushed. *)
Record Handled : Type := mkHandled {
  after : App;
  shown : list Effect;
  pushed : list string
}.

(** No toast of [effs] is destructive. *)
Fixpoint calm (effs : list Effect) : bool :=
  match effs with
  | [] => true
  | Toast _ true :: _ => false
  | _ :: rest => calm rest
  end.

(** [handleConnectWallet] of the settings page. [user] and [linkWallet]
    are those of the render in which the button was pressed. *)
Definition handleConnectWallet (w : Web3.World) (a : App) : Handled :=
  let r := Web3.connect w (web3 a) in
  let a1 := set_web3 (Web3.next r) a in
  match Web3.outcome r with
  | Throws _ => mkHandled a1 (Web3.effects r ++ [Toast "Connection failed" true])%list []
  | Resolves walletAddress =>
      match user (auth a) with
      | Some _ =>
          if Js.truthy_opt walletAddress then
            let l := Identity.linkWalletFrom (user (auth a))
                       (match walletAddress with Some s => s | None => EmptyString end) a1 in
            match outcome l with
            | Resolves _ => mkHandled (app l) (Web3.effects r ++ effects l)%list []
            | Throws _ =>
                mkHandled (app l)
                  (Web3.effects r ++ effects l ++ [Toast "Connection failed" true])%list []
            end
          else mkHandled a1 (Web3.effects r) []
      | None => mkHandled a1 (Web3.effects r) []
      end
  end.

(** [onWalletSubmit] of the register page; the second component is the
    [walletConnected] cell. [register] and [updateAccountType] are those of
    the render in which the form was submitted, so that [updateAccountType]
    spreads the [user] of that render, not the one [register] has just
    set. *)
Definition onWalletSubmit (random_id : string) (name : string)
    (accountType : AccountType) (walletConnected : bool) (a : App) : Handled * bool :=
  if Js.truthy_opt (Web3.address (web3 a)) then
    let r := register random_id
               {| ud_name := name; ud_email := None; ud_password := None;
                  ud_accountType := accountType;
                  ud_walletAddress := Web3.address (web3 a) |} a in
    match outcome r with
    | Throws _ =>
        (mkHandled (app r) (effects r ++ [Toast "Registration failed" true])%list [],
         walletConnected)
    | Resolves _ =>
        let u := Identity.updateAccountTypeFrom (user (auth a)) accountType (app r) in
        match outcome u with
        | Throws _ =>
            (mkHandled (app u)
               (effects r ++ effects u ++ [Toast "Registration failed" true])%list [],
             walletConnected)
        | Resolves _ =>
            (mkHandled (app u)
               (effects r ++ effects u ++ [Toast "Account created!" false])%list
               ["/dashboard"],
             true)
        end
    end
  else (mkHandled a [Toast "Wallet not connected" true] [], walletConnected).

(** [s.slice(-n)] *)
Definition slice_last (n : nat) (s : string) : string :=
  substring (String.length s - n) n s.

(** A string, or [undefined], in a concatenation. *)
Definition text (o : option string) : string :=
  match o with
  | Some s => s
  | None => "undefined"
  end.

(** The second line of the user menu:
    [user?.email || user?.walletAddress?.slice(0, 6) + "..." + user?.walletAddress?.slice(-4)]. *)
Definition subtitle (user : option User) : string :=
  let email := match user with Some u => email u | None => None end in
  let walletAddress := match user with Some u => walletAddress u | None => None end in
  if Js.truthy_opt email then text email
  else text (Js.slice 0 6 <$> walletAddress) ++ "..."
       ++ text (slice_last 4 <$> walletAddress).

(** An entry of the dashboard navigation, without its icon. *)
Record NavItem : Type := mkNavItem {
  title : string;
  href : string;
  roles : option (list AccountType)
}.

Definition navItems : list NavItem :=
  [ mkNavItem "Dashboard" "/dashboard" None;
    mkNavItem "My Credentials" "/dashboard/credentials" (Some [student]);
    mkNavItem "Issue Credential" "/dashboard/issue" (Some [institution]);
    mkNavItem "Issued Credentials" "/dashboard/issued" (Some [institution]);
    mkNavItem "Verify Credential" "/verify" None;
    mkNavItem "Reputation" "/dashboard/reputation" (Some [student]);
    mkNavItem "AI Resume" "/dashboard/reputation/resume" (Some [student]);
    mkNavItem "Settings" "/dashboard/settings" None ].

Definition accountType_eqb (x y : AccountType) : bool :=
  match x, y with
  | student, student | institution, institution => true
  | _, _ => false
  end.

(** [roles.includes(t)] *)
Definition includes_role (rs : list AccountType) (t : AccountType) : bool :=
  existsb (accountType_eqb t) rs.

(** The test of the navigation: an entry is skipped when it has roles, the
    user has an account type, and the roles do not include it. *)
Definition skipped (accountType : option AccountType) (item : NavItem) : bool :=
  match roles item, accountType with
  | Some rs, Some t => negb (includes_role rs t)
  | _, _ => false
  end.

(** The entries rendered for [user?.accountType]. *)
Definition rendered (accountType : option AccountType) : list NavItem :=
  List.filter (fun item => negb (skipped accountType item)) navItems.

End Handlers.

(** ** The forms that call the contract *)
Module Forms.

(** A toast with its description. *)
Record Notice : Type := mkNotice {
  title : string;
  description : string;
  destructive : bool
}.

(** The values of the issue form, which are the arguments of
    [mintCertificate]. *)
Record MintArgs : Type := mkMintArgs {
  m_recipientAddress : string;
  m_studentName : string;
  m_degree : string;
  m_university : string;
  m_certificateURI : string
}.

(** The transaction handle: its hash, and how [tx.wait()] settles. *)
Record Tx : Type := mkTx {
  hash : string;
  wait : settled unit
}.

(** The cells of the issue page. *)
Record IssueCells : Type := mkIssueCells {
  isSubmitting : bool;
  txHash : option string
}.

(** What [onSubmit] of the issue page leaves: its cells, the toasts, the
    calls of [mintCertificate], the routes pushed. *)
Record Issued : Type := mkIssued {
  cells : IssueCells;
  notices : list Notice;
  minted : list MintArgs;
  routes : list string
}.

(** [onSubmit] of the issue page; [accountType] is [user?.accountType]. *)
Definition issue_onSubmit (mintCertificate : MintArgs -> settled Tx)
    (accountType : option Auth.AccountType) (contract : option Web3.Contract)
    (isCorrectNetwork : bool) (values : MintArgs) (c : IssueCells) : Issued :=
  let failed (e : JsError) (h : option string) :=
    mkIssued {| isSubmitting := false; txHash := h |}
      [mkNotice "Failed to issue credential" (Pages.issue_errorMessage e) true]
      [values] [] in
  match accountType with
  | Some Auth.institution =>
      match contract with
      | None =>
          mkIssued c [mkNotice "Contract not connected"
                        "Please connect your wallet to issue credentials." true] [] []
      | Some _ =>
          if isCorrectNetwork then
            match mintCertificate values with
            | Throws e => failed e None
            | Resolves tx =>
                match wait tx with
                | Throws e => failed e (Some (hash tx))
                | Resolves _ =>
                    mkIssued {| isSubmitting := false; txHash := Some (hash tx) |}
                      [mkNotice "Credential issued!"
                         "The academic credential has been successfully issued on the blockchain."
                         false]
                      [values] ["/dashboard/credentials"]
                end
            end
          else
            mkIssued c [mkNotice "Wrong network"
                          "Please switch to the correct network to issue credentials." true]
              [] []
      end
  | _ =>
      mkIssued c [mkNotice "Permission denied"
                    "Only institutions can issue credentials." true] [] []
  end.

Definition dec_digit (c : ascii) : option Z :=
  let n := Z.of_nat (nat_of_ascii c) in
  if (48 <=? n)%Z && (n <=? 57)%Z then Some (n - 48)%Z else None.

(** The longest prefix of decimal digits, read as an integer; [None] when
    [s] starts with no digit. *)
Fixpoint dec_prefix (acc : option Z) (s : string) : option Z :=
  match s with
  | EmptyString => acc
  | String c r =>
      match dec_digit c with
      | Some d =>
          dec_prefix (Some (10 * match acc with Some a => a | None => 0 end + d)%Z) r
      | None => acc
      end
  end.

(** [Number.parseInt(s)]: leading white space is skipped, then an optional
    sign; after [0x] the digits are hexadecimal, otherwise decimal; they
    are read up to the first character that is not one. *)
Definition parseInt (s : string) : Js.number :=
  let s1 := Js.trimStart s in
  let '(neg, s2) :=
    match s1 with
    | String "-" r => (true, r)
    | String "+" r => (false, r)
    | _ => (false, s1)
    end in
  let digits :=
    match s2 with
    | String "0" (String "x" r) => Js.hex_prefix None r
    | String "0" (String "X" r) => Js.hex_prefix None r
    | _ => dec_prefix None s2
    end in
  match digits with
  | None => Js.NaN
  | Some z => Js.toNumber (if neg then (- z)%Z else z)
  end.

(** [interface VerificationResult] *)
Record VerificationResult : Type := mkVerificationResult {
  isVerified : bool;
  v_studentName : string;
  v_degree : string;
  v_university : string;
  v_ipfsHash : string
}.

(** The cells of the verify page. *)
Record VerifyCells : Type := mkVerifyCells {
  isVerifying : bool;
  result : option VerificationResult;
  error : option string
}.

(** What [onSubmit] of the verify page leaves: its cells, the toasts, and
    the token ids [verifyCertificate] was called with. *)
Record Verified : Type := mkVerified {
  vcells : VerifyCells;
  vnotices : list Notice;
  asked : list Js.number
}.

(** [onSubmit] of the verify page. [verifyCertificate] is the call through
    the bound contract, the checks [ethers] makes on its argument
    included. *)
Definition verify_onSubmit (verifyCertificate : Js.number -> settled Pages.Details)
    (contract : option Web3.Contract) (isCorrectNetwork : bool)
    (tokenId : string) (c : VerifyCells) : Verified :=
  match contract with
  | None =>
      mkVerified c [mkNotice "Contract not connected"
                      "Please connect your wallet to verify credentials." true] []
  | Some _ =>
      if isCorrectNetwork then
        let tokenId := parseInt tokenId in
        match verifyCertificate tokenId with
        | Resolves certificateDetails =>
            mkVerified
              {| isVerifying := false;
                 result := Some {| isVerified := true;
                                   v_studentName := Pages.d_studentName certificateDetails;
                                   v_degree := Pages.d_degree certificateDetails;
                                   v_university := Pages.d_university certificateDetails;
                                   v_ipfsHash := Pages.d_ipfsHash certificateDetails |};
                 error := None |}
              [mkNotice "Verification successful"
                 "The credential has been verified on the blockchain." false]
              [tokenId]
        | Throws e =>
            let errorMessage := Pages.verify_errorMessage e in
            mkVerified
              {| isVerifying := false;
                 result := Some {| isVerified := false; v_studentName := "";
                                   v_degree := ""; v_university := ""; v_ipfsHash := "" |};
                 error := Some errorMessage |}
              [mkNotice "Verification failed" errorMessage true]
              [tokenId]
        end
      else
        mkVerified c [mkNotice "Wrong network"
                        "Please switch to the correct network to verify credentials." true] []
  end.

Definition ada_diploma : MintArgs :=
  {| m_recipientAddress := "0x71C7656EC7ab88b098defB751B7401B5f6d8976F";
     m_studentName := "Ada"; m_degree := "Bachelor of Science";
     m_university := "Open University"; m_certificateURI := "ipfs://QmT5NvUtoM5n" |}.

(** A contract that accepts the transaction, which is then reverted. *)
Definition reverting (values : MintArgs) : settled Tx :=
  Resolves {| hash := "0x9f2c"; wait := Throws Props.missingToken |}.

(** A contract that knows token 7 only. *)
Definition only_seven (tokenId : Js.number) : settled Pages.Details :=
  match tokenId with
  | Js.Int 7 => Resolves Props.diploma
  | _ => Throws Props.missingToken
  end.

End Forms.

(** ** The resume: the route and the page that calls it *)
Module Resume.

(** The [credentials] member of the request body: an array, or anything
    else ([undefined] and [null] included). *)
Inductive Credentials : Type :=
| NotAnArray
| ArrayOf (l : list Pages.Credential).

(** The body of the request, after [req.json()]; a [user] that is missing
    or [null] is [None]. *)
Record Body : Type := mkBody {
  b_credentials : Credentials;
  b_user : option Auth.User
}.

(** The JSON of a response. *)
Inductive Payload : Type :=
| resume_json (text : string)
| error_json (text : string).

Record Response : Type := mkResponse {
  status : Z;
  payload : Payload
}.

(** [String(n)] for an integer. *)
Definition toString10 (z : Z) : string :=
  DecimalString.NilZero.string_of_int (Z.to_int z).

(** [l.join(sep)] *)
Fixpoint join (sep : string) (l : list string) : string :=
  match l with
  | [] => EmptyString
  | [x] => x
  | x :: rest => x ++ sep ++ join sep rest
  end.

Definition nl : string := String (ascii_of_nat 10) EmptyString.

(** The line of one credential. *)
Definition line (cred : Pages.Credential) : string :=
  "- " ++ Pages.degree cred ++ " from " ++ Pages.university cred
  ++ " (Credential ID: " ++ toString10 (Pages.cred_id cred) ++ ")".

Definition formattedCredentials (credentials : list Pages.Credential) : string :=
  join nl (map line credentials).

(** The template of the prompt. *)
Definition prompt (name : string) (formatted : string) : string :=
  nl ++ "    Generate a professional resume for a student with the following details:" ++ nl
  ++ nl
  ++ "    Name: " ++ name ++ nl
  ++ "    " ++ nl
  ++ "    Education:" ++ nl
  ++ "    " ++ formatted ++ nl
  ++ nl
  ++ "    Please create a complete resume with the following sections:" ++ nl
  ++ "    1. Professional Summary - Based on the academic credentials" ++ nl
  ++ "    2. Education - Formatted details of the credentials listed above" ++ nl
  ++ "    3. Skills - Infer relevant skills based on the degrees and institutions" ++ nl
  ++ "    4. Achievements - Suggest possible achievements based on the academic background" ++ nl
  ++ nl
  ++ "    Format the resume in a professional manner suitable for job applications." ++ nl
  ++ "    ".

Definition failed : Response :=
  {| status := 500; payload := error_json "Failed to generate resume" |}.

(** [POST]: the response, and the prompts [generateText] was called
    with. [body] is how [req.json()] settles. *)
Definition POST (generateText : string -> settled string) (body : settled Body)
  : Response * list string :=
  match body with
  | Throws _ => (failed, [])
  | Resolves b =>
      match b_credentials b with
      | NotAnArray | ArrayOf [] =>
          ({| status := 400; payload := error_json "No credentials provided" |}, [])
      | ArrayOf credentials =>
          match b_user b with
          | None => (failed, [])
          | Some user =>
              let p := prompt (Auth.name user) (formattedCredentials credentials) in
              match generateText p with
              | Resolves text => ({| status := 200; payload := resume_json text |}, [p])
              | Throws _ => (failed, [p])
              end
          end
      end
  end.

(** The cells of the resume page that [generateResume] touches. *)
Record Cells : Type := mkCells {
  credentials : list Pages.Credential;
  isGenerating : bool;
  error : option string;
  resume : option string
}.

(** [response.ok] *)
Definition ok (r : Response) : bool :=
  (200 <=? status r)%Z && (status r <=? 299)%Z.

(** [data.resume] *)
Definition resume_of (p : Payload) : option string :=
  match p with
  | resume_json text => Some text
  | error_json _ => None
  end.

(** [generateResume] of the resume page: the cells it leaves and the bodies
    it posts. [fetch] is how the request to the route settles. *)
Definition generateResume (fetch : Body -> settled Response)
    (user : option Auth.User) (c : Cells) : Cells * list Body :=
  if Nat.eqb (length (credentials c)) 0 || negb (bool_decide (is_Some user)) then (c, [])
  else
    let body := {| b_credentials := ArrayOf (credentials c); b_user := user |} in
    let failure :=
      {| credentials := credentials c; isGenerating := false;
         error := Some "Failed to generate resume. Please try again.";
         resume := resume c |} in
    match fetch body with
    | Throws _ => (failure, [body])
    | Resolves response =>
        if ok response then
          ({| credentials := credentials c; isGenerating := false; error := None;
              resume := resume_of (payload response) |}, [body])
        else (failure, [body])
    end.

(** The route behind [fetch]. *)
Definition served (generateText : string -> settled string) (body : Body)
  : settled Response :=
  Resolves (fst (POST generateText (Resolves body))).

End Resume.


(** * Properties *)

(** ** JavaScript strings *)
Module JsFacts.
Import Js Props.

Lemma append_nil_r (s : string) : s ++ "" = s.
Proof. induction s as [|c s IH]; simpl; [reflexivity | now rewrite IH]. Qed.

Lemma append_assoc (a b c : string) : (a ++ b) ++ c = a ++ b ++ c.
Proof. induction a as [|x a IH]; simpl; [reflexivity | now rewrite IH]. Qed.

Lemma trimStart_spec (s : string) :
  exists l, s = l ++ trimStart s /\ all_ws l = true
            /\ ws_unit (first_unit (trimStart s)) = false.
Proof.
  induction s as [|c s (l & Hs & Hl & Hf)]; simpl.
  - exists ""; auto.
  - destruct (is_ws c) eqn:Hc.
    + exists (String c l); simpl. rewrite Hc, Hl, <- Hs. auto.
    + exists ""; simpl. auto.
Qed.

Lemma trimEnd_spec (s : string) :
  exists r, s = trimEnd s ++ r /\ all_ws r = true
            /\ ws_unit (last_unit (trimEnd s)) = false
            /\ first_unit (trimEnd s) = (if all_ws s then None else first_unit s).
Proof.
  induction s as [|c s (r & Hs & Hr & Hlast & Hfirst)]; simpl.
  - exists ""; auto.
  - destruct (trimEnd s) as [|d t] eqn:Ht.
    + simpl in Hs. subst r. rewrite Hr.
      destruct (is_ws c) eqn:Hc; simpl.
      * exists (String c s); simpl. rewrite Hc, Hr. auto.
      * exists s; simpl. rewrite Hc. auto.
    + exists r. simpl in Hfirst.
      destruct (all_ws s); [discriminate |].
      rewrite andb_false_r. simpl. repeat split; auto.
      now rewrite Hs at 1.
Qed.

Lemma trim_spec (s : string) : trimmed_of s (trim s).
Proof.
  unfold trimmed_of, trim.
  destruct (trimStart_spec s) as (l & Hs & Hl & Hf).
  destruct (trimEnd_spec (trimStart s)) as (r & Ht & Hr & Hlast & Hfirst).
  repeat split.
  - exists l, r. repeat split; auto. now rewrite <- Ht.
  - rewrite Hfirst. destruct (all_ws (trimStart s)); [reflexivity | exact Hf].
  - exact Hlast.
Qed.

Lemma split_cons (sep : ascii) (s : string) : exists seg segs, split sep s = seg :: segs.
Proof.
  induction s as [|c s (seg & segs & H)]; simpl; eauto.
  destruct (Ascii.eqb c sep); eauto. rewrite H. eauto.
Qed.

Lemma split0_spec (sep : ascii) (s : string) : before_first sep s (split0 sep s).
Proof.
  unfold before_first, split0.
  induction s as [|c s [Hfree Hs]]; simpl.
  - auto.
  - destruct (Ascii.eqb c sep) eqn:Hc; simpl.
    + apply Ascii.eqb_eq in Hc. subst c. split; [reflexivity | right; eauto].
    + destruct (split_cons sep s) as (seg & segs & Hsplit).
      rewrite Hsplit in *. simpl. rewrite Hc, Hfree. split; [reflexivity |].
      destruct Hs as [-> | (r & ->)]; [left | right; exists r]; reflexivity.
Qed.

Lemma startsWith_spec (s p : string) :
  startsWith s p = true <-> exists post, s = p ++ post.
Proof.
  revert s. induction p as [|a p IH]; intros s; simpl.
  - split; [intros _; exists s; reflexivity | reflexivity].
  - destruct s as [|b s].
    + split; [discriminate | intros (post & H); discriminate].
    + rewrite andb_true_iff, Ascii.eqb_eq, IH. split.
      * intros (-> & post & ->). exists post. reflexivity.
      * intros (post & H). injection H as -> ->. eauto.
Qed.

Lemma includes_spec (s sub : string) :
  includes s sub = true <-> occurs_in sub s.
Proof.
  unfold occurs_in. induction s as [|c s IH].
  - simpl. rewrite orb_false_r, startsWith_spec. split.
    + intros (post & H). exists "", post. exact H.
    + intros (pre & post & H). destruct pre; [eauto |]. discriminate.
  - cbn [includes]. rewrite orb_true_iff, startsWith_spec, IH. split.
    + intros [(post & H) | (pre & post & H)].
      * exists "", post. exact H.
      * exists (String c pre), post. simpl. now rewrite H.
    + intros (pre & post & H). destruct pre as [|d pre].
      * left. exists post. exact H.
      * right. simpl in H. injection H as -> ->. eauto.
Qed.

Lemma truthy_nonempty (s : string) : truthy s = true <-> s <> "".
Proof. destruct s; simpl; split; congruence. Qed.

Lemma length_append (a b : string) :
  String.length (a ++ b) = (String.length a + String.length b)%nat.
Proof. induction a as [|c a IH]; simpl; [reflexivity | now rewrite IH]. Qed.

Lemma substring_first_units (n : nat) (s : string) :
  first_units n s (substring 0 n s).
Proof.
  unfold first_units. revert s. induction n as [|n IH]; intros s.
  - exists s. destruct s; simpl; auto.
  - destruct s as [|c s]; simpl.
    + exists "". split; [reflexivity |]. right. split; [reflexivity | lia].
    + destruct (IH s) as (rest & Hs & Hn). exists rest. split.
      * simpl. now rewrite <- Hs.
      * destruct Hn as [Hn | [-> Hn]]; [left | right]; simpl; [lia |].
        split; [reflexivity | lia].
Qed.

(** [s.slice(0, n)] is the first [n] code units of [s]. *)
Lemma slice_first_units (n : nat) (s : string) : first_units n s (slice 0 n s).
Proof. unfold slice. rewrite Nat.sub_0_r. apply substring_first_units. Qed.

Lemma substring_all (n : nat) (s : string) :
  (String.length s <= n)%nat -> substring 0 n s = s.
Proof.
  revert s. induction n as [|n IH]; intros [|c s] H; simpl in *; try reflexivity.
  - lia.
  - rewrite IH; [reflexivity | lia].
Qed.

Lemma substring_drop (k : nat) (s : string) :
  (k <= String.length s)%nat ->
  exists pre, s = pre ++ substring k (String.length s - k) s /\ String.length pre = k.
Proof.
  revert s. induction k as [|k IH]; intros s H.
  - exists "". rewrite Nat.sub_0_r, substring_all by lia. auto.
  - destruct s as [|c s]; simpl in H; [lia |].
    destruct (IH s) as (pre & Hs & Hk); [lia |].
    exists (String c pre). simpl. split; [now rewrite <- Hs | lia].
Qed.

Lemma append_same_length (a a' b b' : string) :
  a ++ b = a' ++ b' -> String.length a = String.length a' -> a = a' /\ b = b'.
Proof.
  revert a'. induction a as [|c a IH]; intros [|c' a'] H Hl; simpl in *;
    try discriminate; [auto |].
  injection H as -> H. destruct (IH a' H) as [-> ->]; [lia | auto].
Qed.

Lemma first_units_unique (n : nat) (s p p' : string) :
  first_units n s p -> first_units n s p' -> p = p'.
Proof.
  intros (r & Hs & Hp) (r' & Hs' & Hp').
  assert (Hl : String.length s = (String.length p + String.length r)%nat)
    by (rewrite Hs at 1; apply length_append).
  assert (Hl' : String.length s = (String.length p' + String.length r')%nat)
    by (rewrite Hs' at 1; apply length_append).
  apply (append_same_length p p' r r'); [congruence |].
  destruct Hp as [Hp | [-> Hp]], Hp' as [Hp' | [-> Hp']]; simpl in *; lia.
Qed.

Lemma last_units_unique (n : nat) (s q q' : string) :
  last_units n s q -> last_units n s q' -> q = q'.
Proof.
  intros (r & Hs & Hq) (r' & Hs' & Hq').
  assert (Hl : String.length s = (String.length r + String.length q)%nat)
    by (rewrite Hs at 1; apply length_append).
  assert (Hl' : String.length s = (String.length r' + String.length q')%nat)
    by (rewrite Hs' at 1; apply length_append).
  apply (append_same_length r r' q q'); [congruence |].
  destruct Hq as [Hq | [-> Hq]], Hq' as [Hq' | [-> Hq']]; simpl in *; lia.
Qed.

(** *** Rounding to a double *)

Lemma round53_safe (z : Z) : safe z -> round53 z = z.
Proof.
  unfold safe, MAX_SAFE_INTEGER, round53. intros H. cbv zeta.
  destruct (Z.leb_spec (Z.log2 (Z.abs z) + 1 - 53) 0) as [_ | Hs]; [reflexivity |].
  exfalso.
  assert (Ha : (0 < Z.abs z)%Z).
  { destruct (Z.eq_dec (Z.abs z) 0%Z) as [E | E]; [rewrite E in Hs; simpl in Hs; lia | lia]. }
  pose proof (proj1 (Z.log2_spec (Z.abs z) Ha)) as Hl.
  assert ((2 ^ 53 <= 2 ^ Z.log2 (Z.abs z))%Z) by (apply Z.pow_le_mono_r; lia).
  change (2 ^ 53)%Z with 9007199254740992%Z in *. lia.
Qed.

Lemma round53_large (z : Z) : (2 ^ 53 <= z)%Z -> (2 ^ 53 <= round53 z)%Z.
Proof.
  intros H. assert (Hz : (0 < z)%Z) by (change (2 ^ 53)%Z with 9007199254740992%Z in H; lia).
  unfold round53. cbv zeta. rewrite Z.abs_eq, Z.sgn_pos by lia.
  assert (Hl : (53 <= Z.log2 z)%Z) by (apply Z.log2_le_pow2; [lia | exact H]).
  destruct (Z.leb_spec (Z.log2 z + 1 - 53) 0) as [Hs | Hs]; [lia |].
  set (sh := (Z.log2 z + 1 - 53)%Z) in *.
  assert (Hp : (0 < 2 ^ sh)%Z) by (apply Z.pow_pos_nonneg; lia).
  assert (Hq : (2 ^ 52 <= z / 2 ^ sh)%Z).
  { apply Z.div_le_lower_bound; [exact Hp |].
    rewrite <- Z.pow_add_r by lia.
    replace (sh + 52)%Z with (Z.log2 z) by (unfold sh; lia).
    apply (Z.log2_spec z Hz). }
  assert (H2 : (2 <= 2 ^ sh)%Z).
  { change 2%Z with (2 ^ 1)%Z at 1. apply Z.pow_le_mono_r; lia. }
  assert (Hq' : (z / 2 ^ sh <=
                 (if (2 ^ (sh - 1) <? z mod 2 ^ sh)%Z
                     || ((z mod 2 ^ sh =? 2 ^ (sh - 1))%Z && Z.odd (z / 2 ^ sh))
                  then z / 2 ^ sh + 1 else z / 2 ^ sh))%Z)
    by (destruct (_ || _); lia).
  change (2 ^ 52)%Z with 4503599627370496%Z in Hq.
  change (2 ^ 53)%Z with 9007199254740992%Z. nia.
Qed.

(** The rounding errs by half a unit of the last place kept, at most, and
    leaves a multiple of that unit. *)
Lemma round53_nearest (z : Z) :
  (0 <= z)%Z ->
  let sh := (Z.log2 z + 1 - 53)%Z in
  (0 < sh)%Z ->
  (2 * Z.abs (round53 z - z) <= 2 ^ sh)%Z /\ (round53 z mod 2 ^ sh = 0)%Z.
Proof.
  intros Hz sh Hs. unfold round53. cbv zeta. fold sh.
  assert (Hpos : (0 < z)%Z).
  { destruct (Z.eq_dec z 0%Z) as [-> | E]; [unfold sh in Hs; simpl in Hs; lia | lia]. }
  rewrite (Z.abs_eq z), Z.sgn_pos by lia. fold sh.
  destruct (Z.leb_spec sh 0) as [H0 | _]; [lia |].
  assert (Hp : (0 < 2 ^ sh)%Z) by (apply Z.pow_pos_nonneg; lia).
  assert (Hh : (2 ^ sh = 2 * 2 ^ (sh - 1))%Z).
  { rewrite <- Z.pow_succ_r by lia. f_equal. lia. }
  pose proof (Z.div_mod z (2 ^ sh) ltac:(lia)) as Hd.
  pose proof (Z.mod_pos_bound z (2 ^ sh) Hp) as Hm.
  rewrite Z.mul_1_l. split; [| apply Z.mod_mul; lia].
  destruct (Z.ltb_spec (2 ^ (sh - 1)) (z mod 2 ^ sh)); simpl.
  - nia.
  - destruct (Z.eqb_spec (z mod 2 ^ sh) (2 ^ (sh - 1))); simpl.
    + destruct (Z.odd (z / 2 ^ sh)); nia.
    + nia.
Qed.

Lemma toNumber_safe (z : Z) : safe z -> toNumber z = Int z.
Proof.
  intros H. unfold toNumber. cbv zeta. rewrite (round53_safe z H).
  unfold safe, MAX_SAFE_INTEGER in H.
  destruct (Z.leb_spec (2 ^ 1024) (Z.abs z)) as [Hb | _]; [| reflexivity].
  exfalso. assert ((2 ^ 53 <= 2 ^ 1024)%Z) by (apply Z.pow_le_mono_r; lia).
  change (2 ^ 53)%Z with 9007199254740992%Z in *. lia.
Qed.

(** A number from 2^53 on stays there: it is no smaller integer. *)
Lemma toNumber_large (z x : Z) :
  (2 ^ 53 <= z)%Z -> toNumber z = Int x -> (2 ^ 53 <= x)%Z.
Proof.
  intros H. unfold toNumber. cbv zeta.
  destruct (2 ^ 1024 <=? Z.abs (round53 z))%Z; [discriminate |].
  intros [= <-]. now apply round53_large.
Qed.

Example round53_tie_down : round53 (2 ^ 53 + 1) = (2 ^ 53)%Z.
Proof. reflexivity. Qed.

Example round53_tie_up : round53 (2 ^ 53 + 3) = (2 ^ 53 + 4)%Z.
Proof. reflexivity. Qed.

Example parseInt16_rounds : parseInt16 "0x20000000000001" = Int 9007199254740992.
Proof. reflexivity. Qed.

End JsFacts.


(** ** The chain session *)
Module Web3Facts.
Import Web3 Props.
Local Arguments is_required : simpl never.

Lemma is_required_Int (z : Z) :
  is_required (Js.Int z) = true <-> z = REQUIRED_CHAIN_ID.
Proof. unfold is_required; simpl. apply Z.eqb_eq. Qed.

Lemma steady_initial (c : Z) : steady c initial.
Proof. unfold steady; simpl. intuition congruence. Qed.

Lemma steady_set_provider (c : Z) (s : State) (p : option BrowserProvider) :
  steady c s ->
  steady c {| provider := p; signer := signer s; contract := contract s;
              address := address s; isConnecting := isConnecting s;
              chainId := chainId s; networkName := networkName s;
              isCorrectNetwork := isCorrectNetwork s |}.
Proof. unfold steady; simpl. tauto. Qed.

Lemma steady_set_isConnecting (c : Z) (b : bool) (s : State) :
  steady c s -> steady c (set_isConnecting b s).
Proof. unfold steady; simpl. tauto. Qed.

Lemma steady_clear_account (c : Z) (s : State) :
  steady c s -> steady c (clear_account s).
Proof. unfold steady; simpl. intuition congruence. Qed.

Lemma steady_set_network (c : Z) (name : string) (s : State) :
  steady c s -> steady c (set_network (mkNetwork c name) s).
Proof. unfold steady; simpl. intuition congruence. Qed.

Lemma steady_set_account (c : Z) (name : string) (sg : Signer) (s : State) :
  steady c s ->
  steady c (set_account (mkNetwork c name) sg (set_network (mkNetwork c name) s)).
Proof.
  unfold steady; simpl. intros (H1 & H2 & H3 & H4).
  destruct (is_required (Js.Int c)) eqn:Hc.
  - apply is_required_Int in Hc. intuition congruence.
  - assert (c <> REQUIRED_CHAIN_ID)
      by (intros E; apply is_required_Int in E; congruence).
    intuition congruence.
Qed.

Lemma reports_network (c : Z) (w : World) (n : Network) :
  reports c w = true -> getNetwork w = Resolves n ->
  n = mkNetwork c (net_name n).
Proof.
  unfold reports. intros H E. rewrite E in H. apply Z.eqb_eq in H.
  destruct n; simpl in *; congruence.
Qed.

Lemma steady_checkConnection (c : Z) (w : World) (s : State) :
  reports c w = true -> steady c s -> steady c (checkConnection w s).
Proof.
  intros Hw Hs. unfold checkConnection.
  destruct (getNetwork w) as [n|] eqn:En; [| exact Hs].
  rewrite (reports_network c w n Hw En).
  destruct (listAccounts w) as [accounts|]; [| now apply steady_set_network].
  destruct (Nat.ltb 0 (length accounts)); [| now apply steady_set_network].
  destruct (getSigner w); [now apply steady_set_account | now apply steady_set_network].
Qed.

Lemma steady_connectWallet (c : Z) (p : option BrowserProvider) (w : World) (s : State) :
  reports c w = true -> steady c s -> steady c (next (connectWallet p w s)).
Proof.
  intros Hw Hs. unfold connectWallet.
  destruct p; [| exact Hs].
  destruct (ethereum_request w eth_requestAccounts); simpl;
    [| now apply steady_set_isConnecting, steady_set_isConnecting].
  destruct (getNetwork w) as [n|] eqn:En; simpl;
    [| now apply steady_set_isConnecting, steady_set_isConnecting].
  rewrite (reports_network c w n Hw En).
  destruct (getSigner w); simpl; apply steady_set_isConnecting.
  - now apply steady_set_account, steady_set_isConnecting.
  - now apply steady_set_network, steady_set_isConnecting.
Qed.

Lemma steady_step (c : Z) (s : State) (ev : Event) :
  stays_on c ev = true -> steady c s -> steady c (step s ev).
Proof.
  destruct ev; simpl; intros Hev Hs.
  - unfold mount. destruct (ethereum w); [| apply steady_initial].
    apply steady_checkConnection; [exact Hev |].
    apply (steady_set_provider c initial), steady_initial.
  - unfold mount. destruct (ethereum w); [| exact Hs].
    apply steady_checkConnection; [exact Hev |].
    now apply steady_set_provider.
  - now apply steady_connectWallet.
  - now apply steady_clear_account.
  - unfold handleAccountsChanged. destruct (Nat.eqb (length accounts) 0); simpl.
    + now apply steady_clear_account.
    + now apply steady_connectWallet.
  - discriminate.
  - exact Hs.
Qed.

Lemma run_snoc (evs : list Event) (ev : Event) :
  run (evs ++ [ev]) = step (run evs) ev.
Proof. unfold run. now rewrite fold_left_app. Qed.

Lemma steady_run (c : Z) (evs : list Event) :
  forallb (stays_on c) evs = true -> steady c (run evs).
Proof.
  induction evs as [|ev evs IH] using rev_ind; intros H.
  - apply steady_initial.
  - rewrite forallb_app in H. apply andb_true_iff in H as [H1 H2].
    simpl in H2. rewrite andb_true_r in H2.
    rewrite run_snoc. apply steady_step; auto.
Qed.

Lemma steady_gating (c : Z) (s : State) : steady c s -> gating s.
Proof.
  unfold steady, gating. intros (H1 & H2 & H3 & H4). split.
  - intros Hc. apply H3 in Hc as [Ha ->]. auto.
  - intros [Hid Ha]. apply H3. split; [exact Ha |].
    apply H2 in Ha. congruence.
Qed.

(** The unconditional part: a contract handle is never held without a
    signer and an address. *)
Lemma bound_connectWallet (p : option BrowserProvider) (w : World) (s : State) :
  bound s -> bound (next (connectWallet p w s)).
Proof.
  unfold bound, connectWallet. intros Hs.
  destruct p; [| exact Hs].
  destruct (ethereum_request w eth_requestAccounts); simpl; [| exact Hs].
  destruct (getNetwork w); simpl; [| exact Hs].
  destruct (getSigner w); simpl; [| exact Hs].
  destruct (is_required _); intuition congruence.
Qed.

Lemma bound_checkConnection (w : World) (s : State) :
  bound s -> bound (checkConnection w s).
Proof.
  unfold bound, checkConnection. intros Hs.
  destruct (getNetwork w); [| exact Hs].
  destruct (listAccounts w) as [accounts|]; [| exact Hs].
  destruct (Nat.ltb 0 (length accounts)); [| exact Hs].
  destruct (getSigner w); simpl; [| exact Hs].
  destruct (is_required _); intuition congruence.
Qed.

Lemma bound_step (s : State) (ev : Event) : bound s -> bound (step s ev).
Proof.
  destruct ev; simpl; intros Hs.
  - unfold mount. destruct (ethereum w); [| unfold bound; simpl; intuition congruence].
    apply bound_checkConnection. unfold bound; simpl; intuition congruence.
  - unfold mount. destruct (ethereum w); [| exact Hs].
    apply bound_checkConnection. exact Hs.
  - now apply bound_connectWallet.
  - unfold bound; simpl; intuition congruence.
  - unfold handleAccountsChanged. destruct (Nat.eqb (length accounts) 0); simpl.
    + unfold bound; simpl; intuition congruence.
    + now apply bound_connectWallet.
  - exact Hs.
  - exact Hs.
Qed.

Lemma bound_run (evs : list Event) : bound (run evs).
Proof.
  induction evs as [|ev evs IH] using rev_ind.
  - unfold bound; simpl; intuition congruence.
  - rewrite run_snoc. now apply bound_step.
Qed.

(** A page load forgets what came before it. *)
Lemma run_after_load (pre evs : list Event) (w : World) :
  run (pre ++ PageLoad w :: evs) = run (PageLoad w :: evs).
Proof. unfold run. rewrite fold_left_app. reflexivity. Qed.

Lemma reports_chain_seen (w : World) : reports (chain_seen w) w = true.
Proof.
  unfold reports, chain_seen. destruct (getNetwork w); [apply Z.eqb_refl | reflexivity].
Qed.

Lemma gating_after_load (s : State) (w : World) : gating (step s (PageLoad w)).
Proof.
  change (step s (PageLoad w)) with (run [PageLoad w]).
  apply (steady_gating (chain_seen w)), steady_run.
  simpl. now rewrite reports_chain_seen.
Qed.

(** The gating is broken by a chain-changed event only until the page has
    loaded anew: what happened before the last load does not matter. *)
Lemma gating_since_load (c : Z) (pre evs : list Event) (w : World) :
  forallb (stays_on c) (PageLoad w :: evs) = true ->
  gating (run (pre ++ PageLoad w :: evs)).
Proof.
  intros H. rewrite run_after_load. now apply (steady_gating c), steady_run.
Qed.

(** In every reachable state a contract handle comes with an address, and
    the signer is set exactly when the address is. *)
Lemma reachable_bound (s : State) : reachable s -> bound s.
Proof. intros [evs ->]. apply bound_run. Qed.

(** *** Network gating *)

(** C1, as the code has it. While the wallet stays on one chain (every
    network read that succeeds reports the same chain id, and no
    chain-changed event is handled), every state reached through page
    loads, runs of the mount effect, connect, disconnect and
    accounts-changed has a contract handle exactly when [chainId] is the
    required chain and [address] is set; and a contract handle comes with
    a signer. *)
Theorem network_gating (c : Z) (evs : list Event) :
  forallb (stays_on c) evs = true ->
  gating (run evs)
  /\ (contract (run evs) <> None -> signer (run evs) <> None).
Proof.
  intros H. split.
  - now apply (steady_gating c), steady_run.
  - intros Hc. destruct (bound_run evs) as [Ha Hs]. apply Hs, Ha, Hc.
Qed.

Lemma network_gating_witness :
  forallb (stays_on REQUIRED_CHAIN_ID)
          [PageLoad codex; DisconnectWallet; ConnectWallet codex] = true
  /\ gating (run [PageLoad codex; DisconnectWallet; ConnectWallet codex])
  /\ (contract (run [PageLoad codex; DisconnectWallet; ConnectWallet codex]) <> None ->
      signer (run [PageLoad codex; DisconnectWallet; ConnectWallet codex]) <> None).
Proof.
  split; [reflexivity |].
  apply (network_gating REQUIRED_CHAIN_ID
           [PageLoad codex; DisconnectWallet; ConnectWallet codex]).
  reflexivity.
Defined.

(** C1 as stated fails: after a page load on the required chain with an
    authorised account, a chain-changed event to chain 1 leaves the
    contract handle bound while [chainId] is 1. *)
Lemma network_gating_counterexample :
  contract (run [PageLoad codex; ChainChanged "0x1"]) <> None
  /\ chainId (run [PageLoad codex; ChainChanged "0x1"]) = Some (Js.Int 1)
  /\ ~ gating (run [PageLoad codex; ChainChanged "0x1"]).
Proof.
  assert (Hc : contract (run [PageLoad codex; ChainChanged "0x1"]) <> None)
    by (vm_compute; discriminate).
  repeat split; [exact Hc |].
  intros [G _]. destruct (G Hc) as [E _]. vm_compute in E. discriminate E.
Qed.

(** *** The chain-changed event *)

(** C2, as the code has it. The handler sets [chainId] to the parsed id
    and [isCorrectNetwork] to whether it is the required one, asks for a
    reload of the page, and leaves the contract handle and every other
    cell as they were. The gating holds again on the reloaded page. *)
Theorem chain_changed_step (chainIdHex : string) (s : State) (w : World) :
  contract (fst (handleChainChanged chainIdHex s)) = contract s
  /\ signer (fst (handleChainChanged chainIdHex s)) = signer s
  /\ address (fst (handleChainChanged chainIdHex s)) = address s
  /\ provider (fst (handleChainChanged chainIdHex s)) = provider s
  /\ networkName (fst (handleChainChanged chainIdHex s)) = networkName s
  /\ chainId (fst (handleChainChanged chainIdHex s)) = Some (Js.parseInt16 chainIdHex)
  /\ isCorrectNetwork (fst (handleChainChanged chainIdHex s))
     = Js.strict_eq (Js.parseInt16 chainIdHex) (Js.Int REQUIRED_CHAIN_ID)
  /\ snd (handleChainChanged chainIdHex s) = [Reload]
  /\ gating (step (fst (handleChainChanged chainIdHex s)) (PageLoad w)).
Proof.
  repeat (split; [reflexivity |]). apply gating_after_load.
Qed.

(** C2 as stated fails: on the session of a connected account on the
    required chain, the chain-changed step to chain 1 leaves the contract
    handle bound. *)
Lemma chain_changed_counterexample :
  contract connected <> None
  /\ contract (step connected (ChainChanged "0x1"))
     = Some (mkContract contractAddress alice).
Proof. split; [vm_compute; discriminate | reflexivity]. Qed.

(** *** Switching the network *)

(** C4, as the code has it. With a wallet present, [switchNetwork] sends
    one switch request. When that fails with code 4902 it sends one
    add-chain request with the fixed descriptor, and nothing after it: the
    switch is not requested again. When it fails with any other code, or
    succeeds, no add-chain request is sent. *)
Theorem switchNetwork_fallback (w : World) :
  ethereum w = true ->
  (forall e, request w (wallet_switchEthereumChain requiredChainHex) = Throws e ->
             code e = Some 4902%Z ->
             requests (switchNetwork w)
             = [wallet_switchEthereumChain requiredChainHex;
                wallet_addEthereumChain chainDescriptor])
  /\ (forall e, request w (wallet_switchEthereumChain requiredChainHex) = Throws e ->
                code e <> Some 4902%Z ->
                switchNetwork w
                = [Request (wallet_switchEthereumChain requiredChainHex);
                   Toast "Network switch failed" true])
  /\ (forall u, request w (wallet_switchEthereumChain requiredChainHex) = Resolves u ->
                switchNetwork w
                = [Request (wallet_switchEthereumChain requiredChainHex)]).
Proof.
  intros He. unfold switchNetwork, code_is. rewrite He. split; [| split].
  - intros e -> ->. simpl.
    now destruct (request w (wallet_addEthereumChain chainDescriptor)).
  - intros e -> Hcode. destruct (code e) as [z|]; [| reflexivity].
    destruct (Z.eqb_spec z 4902); [congruence | reflexivity].
  - now intros u ->.
Qed.

Lemma switchNetwork_fallback_witness :
  requests (switchNetwork mainnet_wallet)
  = [wallet_switchEthereumChain requiredChainHex;
     wallet_addEthereumChain chainDescriptor].
Proof.
  destruct (switchNetwork_fallback mainnet_wallet eq_refl) as (H & _ & _).
  apply (H unknownChain); reflexivity.
Defined.

(** C4 as stated fails: a wallet that answers the switch request with
    code 4902 and accepts the add-chain request receives these two
    requests and no second switch request. *)
Lemma switchNetwork_counterexample :
  request mainnet_wallet (wallet_switchEthereumChain requiredChainHex)
  = Throws unknownChain
  /\ code unknownChain = Some 4902%Z
  /\ switchNetwork mainnet_wallet
     = [Request (wallet_switchEthereumChain "0xa045c");
        Request (wallet_addEthereumChain chainDescriptor)].
Proof. repeat split. Qed.

(** *** Connecting *)




End Web3Facts.

(** ** The identity *)
Module AuthFacts.
Import Auth Props.

Lemma truthy_opt_Some (s : string) : s <> "" -> Js.truthy_opt (Some s) = true.
Proof. intros H. simpl. now apply JsFacts.truthy_nonempty. Qed.

Lemma stored_setItem (u : User) (a : App) : stored (setItem u a) = Some u.
Proof. unfold stored, setItem; simpl. apply lookup_insert_eq. Qed.

Lemma stored_set_isLoading (b : bool) (a : App) : stored (set_isLoading b a) = stored a.
Proof. reflexivity. Qed.

Lemma accountType_link (address : option string) (u : User) :
  accountType (link_if_connected address u) = accountType u.
Proof. unfold link_if_connected. now destruct (Js.truthy_opt address). Qed.

(** *** Unlinking *)

(** C3, as the code has it. With an identity in force, the auth
    provider's [disconnectWallet] clears [walletAddress] on the identity and
    in the store, and it also disconnects the chain session: the session's
    signer, address and contract handle are cleared, its other cells
    stay. *)
Theorem unlink_effect (a : App) (u : User) :
  identity a = Some u ->
  identity (app (disconnectWallet a)) = Some (with_walletAddress None u)
  /\ stored (app (disconnectWallet a)) = Some (with_walletAddress None u)
  /\ walletAddress (with_walletAddress None u) = None
  /\ Web3.address (web3 (app (disconnectWallet a))) = None
  /\ Web3.signer (web3 (app (disconnectWallet a))) = None
  /\ Web3.contract (web3 (app (disconnectWallet a))) = None
  /\ Web3.provider (web3 (app (disconnectWallet a))) = Web3.provider (web3 a)
  /\ Web3.chainId (web3 (app (disconnectWallet a))) = Web3.chainId (web3 a)
  /\ Web3.networkName (web3 (app (disconnectWallet a))) = Web3.networkName (web3 a)
  /\ outcome (disconnectWallet a) = Resolves tt.
Proof.
  unfold identity, disconnectWallet. intros ->. simpl.
  split; [reflexivity |]. split; [apply stored_setItem |].
  repeat split.
Qed.

Lemma unlink_effect_witness :
  Web3.address (web3 (app (disconnectWallet member))) = None.
Proof.
  destruct (unlink_effect member
              {| id := "k3j9x2a"; name := "a"; email := Some "a@school.org";
                 accountType := student;
                 walletAddress := Some (Web3.getAddress alice) |} eq_refl)
    as (_ & _ & _ & H & _).
  exact H.
Defined.

(** C3 as stated fails: unlinking the logged-in member, whose session
    holds the address of [alice], leaves the session without address. *)
Lemma unlink_counterexample :
  (exists u, identity member = Some u
             /\ walletAddress u = Some (Web3.getAddress alice))
  /\ Web3.address (web3 member) = Some (Web3.getAddress alice)
  /\ Web3.address (web3 (app (disconnectWallet member))) = None.
Proof.
  split; [| split; reflexivity].
  eexists. split; reflexivity.
Qed.

(** *** Identity synthesis *)

(** C8. Once the stored session has been checked, with no stored
    identity and a session address [address] (an account address, hence
    not the empty string), the wallet effect creates the identity
    [wallet-<address>], a student whose name is "User " followed by the
    first six characters of the address, linked to the address, and stores
    it. *)
Theorem identity_synthesis (a : App) (address prefix : string) :
  Web3.address (web3 a) = Some address ->
  address <> "" ->
  isLoading (auth a) = false ->
  stored a = None ->
  first_units 6 address prefix ->
  let newUser :=
    {| id := "wallet-" ++ address;
       name := "User " ++ prefix;
       email := None;
       accountType := student;
       walletAddress := Some address |} in
  identity (fst (handleWalletConnection a)) = Some newUser
  /\ stored (fst (handleWalletConnection a)) = Some newUser.
Proof.
  unfold stored, handleWalletConnection. intros -> Haddr -> -> Hprefix.
  apply JsFacts.truthy_nonempty in Haddr. rewrite Haddr. simpl.
  rewrite (JsFacts.first_units_unique 6 address _ _
             (JsFacts.slice_first_units 6 address) Hprefix).
  split; [reflexivity | apply lookup_insert_eq].
Qed.

Lemma identity_synthesis_witness :
  identity (fst (handleWalletConnection visitor))
  = Some {| id := "wallet-0x71C7656EC7ab88b098defB751B7401B5f6d8976F";
            name := "User 0x71C7";
            email := None;
            accountType := student;
            walletAddress := Some "0x71C7656EC7ab88b098defB751B7401B5f6d8976F" |}.
Proof.
  refine (proj1 (identity_synthesis visitor (Web3.getAddress alice) "0x71C7"
                   eq_refl _ eq_refl eq_refl _)).
  - discriminate.
  - exists "656EC7ab88b098defB751B7401B5f6d8976F". split; [reflexivity |].
    left. reflexivity.
Defined.

(** The same on a page that has just checked an empty store. *)
Lemma synthesis_after_checkSession (a : App) (address : string) :
  Web3.address (web3 a) = Some address ->
  address <> "" ->
  stored a = None ->
  id <$> identity (fst (handleWalletConnection (checkSession a)))
  = Some ("wallet-" ++ address).
Proof.
  unfold stored, handleWalletConnection, checkSession. intros Ha Hne Hs.
  rewrite Hs. simpl. rewrite Ha, Hs.
  apply JsFacts.truthy_nonempty in Hne. rewrite Hne. reflexivity.
Qed.

(** *** Login *)

(** C9. [login] always succeeds; the identity it creates and stores is
    an institution exactly when the email contains "institution", and a
    student otherwise. *)
Theorem login_heuristic (random_id email password : string) (a : App) :
  exists u,
    identity (app (login random_id email password a)) = Some u
    /\ stored (app (login random_id email password a)) = Some u
    /\ outcome (login random_id email password a) = Resolves tt
    /\ (accountType u = institution <-> occurs_in "institution" email)
    /\ (accountType u = student <-> ~ occurs_in "institution" email).
Proof.
  eexists. split; [reflexivity |]. split; [apply lookup_insert_eq |].
  split; [reflexivity |].
  rewrite accountType_link. simpl.
  rewrite <- JsFacts.includes_spec.
  destruct (Js.includes email "institution"); split; split; congruence.
Qed.

Example login_institution (password : string) (a : App) :
  accountType <$> identity (app (login "k3j9x2a" "a@institution.org" password a))
  = Some institution.
Proof. simpl. now rewrite accountType_link. Qed.

Example login_school (password : string) (a : App) :
  accountType <$> identity (app (login "k3j9x2a" "a@school.org" password a))
  = Some student.
Proof. simpl. now rewrite accountType_link. Qed.

(** *** Linking on login and on registration *)

(** C10. The identity created by [login] or by [register] carries the
    session address as [walletAddress] when the session has one (an
    account address, hence not the empty string), and no [walletAddress]
    when the session has none; the store holds the same identity. *)
Theorem auto_link (random_id email password : string) (userData : UserData) (a : App) :
  (forall address, Web3.address (web3 a) = Some address -> address <> "" ->
     walletAddress <$> identity (app (login random_id email password a)) = Some (Some address)
     /\ walletAddress <$> identity (app (register random_id userData a)) = Some (Some address))
  /\ (Web3.address (web3 a) = None ->
     walletAddress <$> identity (app (login random_id email password a)) = Some None
     /\ walletAddress <$> identity (app (register random_id userData a)) = Some None)
  /\ stored (app (login random_id email password a))
     = identity (app (login random_id email password a))
  /\ stored (app (register random_id userData a))
     = identity (app (register random_id userData a)).
Proof.
  split; [| split; [| split]].
  - intros address Ha Hne. unfold login, register, link_if_connected.
    rewrite Ha, (truthy_opt_Some address Hne). split; reflexivity.
  - intros Ha. unfold login, register, link_if_connected.
    rewrite Ha. split; reflexivity.
  - apply lookup_insert_eq.
  - apply lookup_insert_eq.
Qed.

Lemma auto_link_witness :
  (walletAddress <$> identity (app (login "k3j9x2a" "a@school.org" "secret" visitor))
   = Some (Some (Web3.getAddress alice))
   /\ walletAddress <$> identity (app (register "p0q8w7e" newcomer visitor))
      = Some (Some (Web3.getAddress alice)))
  /\ (walletAddress <$> identity (app (login "k3j9x2a" "a@school.org" "secret" walletless))
      = Some None
      /\ walletAddress <$> identity (app (register "p0q8w7e" newcomer walletless))
         = Some None).
Proof.
  split.
  - refine (proj1 (auto_link "k3j9x2a" "a@school.org" "secret" newcomer visitor)
              _ eq_refl _).
    discriminate.
  - exact (proj1 (proj2 (auto_link "k3j9x2a" "a@school.org" "secret" newcomer walletless))
             eq_refl).
Defined.

End AuthFacts.

(** ** The credential pages *)
Module PagesFacts.
Import Pages Props.
Local Open Scope list_scope.

(** A loop that pushes the items a partial function accepts is a
    filtering map. *)
Lemma push_loop {A B : Type} (turn : list B -> A -> list B) (f : A -> option B) :
  (forall acc x, turn acc x = acc ++ match f x with Some y => [y] | None => [] end) ->
  forall (l : list A) (acc : list B), fold_left turn l acc = acc ++ omap f l.
Proof.
  intros Hturn. induction l as [|x l IH]; intros acc; simpl.
  - now rewrite app_nil_r.
  - rewrite IH, Hturn. destruct (f x); simpl.
    + now rewrite <- app_assoc.
    + now rewrite app_nil_r.
Qed.

Lemma issued_loop_omap (c : Calls) (issuedTokenIds : list Z) :
  issued_loop c issuedTokenIds = omap (issued_credential c) issuedTokenIds.
Proof.
  unfold issued_loop. rewrite (push_loop _ (issued_credential c)); [reflexivity |].
  intros acc tokenId. unfold issued_turn, issued_credential.
  destruct (verifyCertificate c tokenId); [| now rewrite app_nil_r].
  destruct (ownerOf c tokenId); [reflexivity | now rewrite app_nil_r].
Qed.

Lemma owned_loop_omap (c : Calls) (address : string) (count : Z) :
  owned_loop c address count
  = omap (owned_credential c address) (seq 0 (Z.to_nat count)).
Proof.
  unfold owned_loop. rewrite (push_loop _ (owned_credential c address)); [reflexivity |].
  intros acc i. unfold owned_turn, owned_credential.
  destruct (tokenOfOwnerByIndex c address (Z.of_nat i)) as [tokenId|];
    [| now rewrite app_nil_r].
  destruct (verifyCertificate c tokenId); [reflexivity | now rewrite app_nil_r].
Qed.

Lemma issued_ids (c : Calls) (issuedTokenIds : list Z) :
  map cred_id (omap (issued_credential c) issuedTokenIds)
  = map Js.round53 (List.filter (issued_ok c) issuedTokenIds).
Proof.
  induction issuedTokenIds as [|tokenId l IH]; [reflexivity |].
  cbn [omap list_omap List.filter].
  unfold issued_credential at 1, issued_ok at 1.
  destruct (verifyCertificate c tokenId); [| exact IH].
  destruct (ownerOf c tokenId); [| exact IH].
  cbn [map cred_id]. f_equal. exact IH.
Qed.

Lemma round53_safe_ids (ids : list Z) (keep : Z -> bool) :
  Forall safe ids -> map Js.round53 (List.filter keep ids) = List.filter keep ids.
Proof.
  induction 1 as [|z l Hz _ IH]; [reflexivity |].
  cbn [List.filter]. destruct (keep z); [| exact IH].
  cbn [map]. now rewrite (JsFacts.round53_safe z Hz), IH.
Qed.

(** *** Batch reads *)

(** C6. On both credential pages, once the list of tokens (or their
    count) has been read, the credentials shown are those of the items
    whose lookups succeed, in the order of the items; the items whose
    lookup fails are left out and no error is set. The id of an entry is
    [Number(tokenId)]: the token id itself up to 2^53 - 1, the nearest
    double beyond. *)
Theorem batch_partial_failure (c : Calls) (address : string)
    (contract : Web3.Contract) (v : View) :
  address <> "" ->
  (forall issuedTokenIds,
      getIssuedCertificates c address = Resolves issuedTokenIds ->
      let v' := fetchIssuedCredentials c (Some address) true (Some contract)
                  (Some Auth.institution) v in
      credentials v' = omap (issued_credential c) issuedTokenIds
      /\ map cred_id (credentials v')
         = map Js.round53 (List.filter (issued_ok c) issuedTokenIds)
      /\ (Forall safe issuedTokenIds ->
          map cred_id (credentials v') = List.filter (issued_ok c) issuedTokenIds)
      /\ error v' = None)
  /\ (forall count,
      balanceOf c address = Resolves count ->
      let v' := fetchCredentials c (Some address) true (Some contract) v in
      credentials v' = omap (owned_credential c address) (seq 0 (Z.to_nat count))
      /\ error v' = None).
Proof.
  intros Ha. apply JsFacts.truthy_nonempty in Ha. split.
  - intros ids Hids. unfold fetchIssuedCredentials. rewrite Ha, Hids. simpl.
    assert (E : (if Nat.eqb (length ids) 0 then [] else issued_loop c ids)
                = omap (issued_credential c) ids).
    { destruct ids; [reflexivity | apply issued_loop_omap]. }
    rewrite E. split; [reflexivity |]. split; [apply issued_ids |].
    split; [| reflexivity].
    intros Hsafe. rewrite issued_ids. now apply round53_safe_ids.
  - intros count Hcount. unfold fetchCredentials. rewrite Ha, Hcount. simpl.
    destruct (Z.eqb_spec count 0) as [-> | Hne]; simpl.
    + split; reflexivity.
    + split; [apply owned_loop_omap | reflexivity].
Qed.

Lemma batch_partial_failure_witness :
  map cred_id
      (credentials (fetchIssuedCredentials three_tokens (Some (Web3.getAddress alice))
                      true (Some (Web3.mkContract Web3.contractAddress alice))
                      (Some Auth.institution) emptyView))
  = List.filter (issued_ok three_tokens) [1; 2; 3]%Z.
Proof.
  refine (proj1 (proj2 (proj2
            (proj1 (batch_partial_failure three_tokens (Web3.getAddress alice)
                      (Web3.mkContract Web3.contractAddress alice) emptyView _)
                   [1; 2; 3]%Z eq_refl))) _).
  - discriminate.
  - repeat constructor; unfold safe, MAX_SAFE_INTEGER; simpl; lia.
Defined.

(** Three tokens whose second lookup fails: the entries of tokens 1 and
    3, in that order, on both pages. *)
Example batch_three_tokens :
  map cred_id
      (credentials (fetchIssuedCredentials three_tokens (Some (Web3.getAddress alice))
                      true (Some (Web3.mkContract Web3.contractAddress alice))
                      (Some Auth.institution) emptyView))
  = [1; 3]%Z
  /\ map cred_id
       (credentials (fetchCredentials three_tokens (Some (Web3.getAddress alice))
                       true (Some (Web3.mkContract Web3.contractAddress alice))
                       emptyView))
     = [1; 3]%Z.
Proof. split; reflexivity. Qed.

(** *** The message of a failed contract call *)

(** C7, as the code has it. The message shown is the [reason] of the
    failure when that is a string that is not empty; otherwise, when
    [message] is a string that is not empty, the part of it before the
    first opening parenthesis, without the white space at its ends;
    otherwise the default text of the page. *)
Theorem errorMessage_extraction (default : string) (e : JsError) :
  (forall r, reason e = Some r -> r <> "" -> errorMessage default e = r)
  /\ (forall m, reason e = None \/ reason e = Some "" ->
                message e = Some m -> m <> "" ->
                errorMessage default e = Js.trim (Js.split0 "(" m)
                /\ exists p, before_first "(" m p
                             /\ trimmed_of p (errorMessage default e))
  /\ (reason e = None \/ reason e = Some "" ->
      message e = None \/ message e = Some "" ->
      errorMessage default e = default).
Proof.
  unfold errorMessage. split; [| split].
  - intros r -> Hr. apply JsFacts.truthy_nonempty in Hr. simpl. now rewrite Hr.
  - intros m Hreason -> Hm. apply JsFacts.truthy_nonempty in Hm.
    assert (Js.truthy_opt (reason e) = false) as -> by (destruct Hreason as [-> | ->]; reflexivity).
    simpl. rewrite Hm. split; [reflexivity |].
    exists (Js.split0 "(" m). split; [apply JsFacts.split0_spec | apply JsFacts.trim_spec].
  - intros Hreason Hmessage.
    assert (Js.truthy_opt (reason e) = false) as -> by (destruct Hreason as [-> | ->]; reflexivity).
    assert (Js.truthy_opt (message e) = false) as -> by (destruct Hmessage as [-> | ->]; reflexivity).
    reflexivity.
Qed.

Lemma errorMessage_extraction_witness :
  verify_errorMessage missingToken = "ERC721: invalid token ID"
  /\ issue_errorMessage emptyReason = "execution reverted"
  /\ issue_errorMessage {| code := Some 4001%Z; reason := None; message := None |}
     = issue_default.
Proof.
  split; [| split].
  - refine (proj1 (errorMessage_extraction verify_default missingToken) _ eq_refl _).
    discriminate.
  - refine (proj1 (proj1 (proj2 (errorMessage_extraction issue_default emptyReason))
                     "execution reverted (action=call)" _ eq_refl _)).
    + right. reflexivity.
    + discriminate.
  - apply (proj2 (proj2 (errorMessage_extraction issue_default
                           {| code := Some 4001%Z; reason := None; message := None |})));
      left; reflexivity.
Defined.

(** C7 as stated fails: a failure whose [reason] is present and is the
    empty string is shown with the cleaned [message], not with its
    [reason]. *)
Lemma errorMessage_counterexample :
  reason emptyReason = Some ""
  /\ verify_errorMessage emptyReason = "execution reverted"
  /\ verify_errorMessage emptyReason <> "".
Proof. repeat split. discriminate. Qed.

End PagesFacts.

(** ** More on the chain session *)
Module SessionFacts.
Import Web3 Props Keeps.
Local Arguments is_required : simpl never.

(** *** Connecting twice *)

(** X1. Calling [connectWallet] again, with the wallet answering as before,
    settles the same way and leaves the state of the first call. *)
Theorem connect_idempotent (w : World) (s : State) :
  connect w (next (connect w s)) = connect w s.
Proof.
  unfold connect, connectWallet.
  destruct s as [[p|] sg k a ic ci nn icn]; [| reflexivity].
  cbn [provider].
  destruct (ethereum_request w eth_requestAccounts); [| reflexivity].
  destruct (getNetwork w) as [n|]; [| reflexivity].
  destruct (getSigner w) as [sg'|]; [| reflexivity].
  unfold set_isConnecting, set_account, set_network; cbn.
  destruct (is_required (Js.Int (net_chainId n))); reflexivity.
Qed.

(** X2. Disconnecting is local and undone by connecting again: after a
    connection on the required chain, a disconnect followed by a connect
    that the wallet answers as before gives the state back. *)
Theorem reconnect_restores (w : World) (s : State) (u : unit) (n : Network) (sg : Signer) :
  provider s <> None ->
  ethereum_request w eth_requestAccounts = Resolves u ->
  getNetwork w = Resolves n ->
  net_chainId n = REQUIRED_CHAIN_ID ->
  getSigner w = Resolves sg ->
  address (next (disconnectWallet (next (connect w s)))) = None
  /\ next (connect w (next (disconnectWallet (next (connect w s)))))
     = next (connect w s).
Proof.
  intros Hp Hr Hn Hc Hsg. unfold connect, connectWallet.
  destruct s as [[p|] sg0 k a ic ci nn icn]; [| now destruct Hp].
  cbn [provider]. rewrite Hr, Hn, Hsg. cbn.
  unfold set_isConnecting, set_account, set_network; cbn.
  assert (Hreq : is_required (Js.Int (net_chainId n)) = true)
    by now apply Web3Facts.is_required_Int.
  rewrite Hreq. split; reflexivity.
Qed.

Lemma reconnect_restores_witness :
  next (connect codex (next (disconnectWallet (next (connect codex connected)))))
  = next (connect codex connected).
Proof.
  refine (proj2 (reconnect_restores codex connected tt
                   (mkNetwork REQUIRED_CHAIN_ID "open-campus-codex") alice
                   _ eq_refl eq_refl eq_refl eq_refl)).
  discriminate.
Defined.

(** *** The cells that go together *)

Lemma derived_checkConnection (w : World) (s : State) :
  derived s -> derived (checkConnection w s).
Proof.
  unfold derived, checkConnection. intros Hs.
  destruct (getNetwork w); [| exact Hs].
  destruct (listAccounts w) as [accounts|]; [| reflexivity].
  destruct (Nat.ltb 0 (length accounts)); [| reflexivity].
  destruct (getSigner w); reflexivity.
Qed.

Lemma derived_connectWallet (p : option BrowserProvider) (w : World) (s : State) :
  derived s -> derived (next (connectWallet p w s)).
Proof.
  unfold derived, connectWallet. intros Hs.
  destruct p; [| exact Hs].
  destruct (ethereum_request w eth_requestAccounts); simpl; [| exact Hs].
  destruct (getNetwork w); simpl; [| exact Hs].
  destruct (getSigner w); reflexivity.
Qed.

Lemma derived_step (s : State) (ev : Event) : derived s -> derived (step s ev).
Proof.
  destruct ev; simpl; intros Hs.
  - unfold mount. destruct (ethereum w); [| reflexivity].
    now apply derived_checkConnection.
  - unfold mount. destruct (ethereum w); [| exact Hs].
    now apply derived_checkConnection.
  - now apply derived_connectWallet.
  - exact Hs.
  - unfold handleAccountsChanged. destruct (Nat.eqb (length accounts) 0); simpl.
    + exact Hs.
    + now apply derived_connectWallet.
  - reflexivity.
  - exact Hs.
Qed.

(** X3. In every reachable state, also between a chain-changed event and the
    reload, [isCorrectNetwork] says whether [chainId] is the required
    chain. *)
Theorem isCorrectNetwork_derived (evs : list Event) :
  isCorrectNetwork (run evs) = true
  <-> chainId (run evs) = Some (Js.Int REQUIRED_CHAIN_ID).
Proof.
  assert (H : derived (run evs)).
  { induction evs as [|ev evs IH] using rev_ind; [reflexivity |].
    rewrite Web3Facts.run_snoc. now apply derived_step. }
  unfold derived in H. rewrite H.
  destruct (chainId (run evs)) as [[|z|b]|]; simpl.
  - split; discriminate.
  - rewrite Web3Facts.is_required_Int. split; congruence.
  - split; discriminate.
  - split; discriminate.
Qed.

Lemma signed_checkConnection (w : World) (s : State) :
  signed s -> signed (checkConnection w s).
Proof.
  unfold signed, checkConnection. intros Hs.
  destruct (getNetwork w); [| exact Hs].
  destruct (listAccounts w) as [accounts|]; [| exact Hs].
  destruct (Nat.ltb 0 (length accounts)); [| exact Hs].
  destruct (getSigner w); [reflexivity | exact Hs].
Qed.

Lemma signed_connectWallet (p : option BrowserProvider) (w : World) (s : State) :
  signed s -> signed (next (connectWallet p w s)).
Proof.
  unfold signed, connectWallet. intros Hs.
  destruct p; [| exact Hs].
  destruct (ethereum_request w eth_requestAccounts); simpl; [| exact Hs].
  destruct (getNetwork w); simpl; [| exact Hs].
  destruct (getSigner w); [reflexivity | exact Hs].
Qed.

Lemma signed_step (s : State) (ev : Event) : signed s -> signed (step s ev).
Proof.
  destruct ev; simpl; intros Hs.
  - unfold mount. destruct (ethereum w); [| reflexivity].
    now apply signed_checkConnection.
  - unfold mount. destruct (ethereum w); [| exact Hs].
    now apply signed_checkConnection.
  - now apply signed_connectWallet.
  - reflexivity.
  - unfold handleAccountsChanged. destruct (Nat.eqb (length accounts) 0); simpl.
    + reflexivity.
    + now apply signed_connectWallet.
  - exact Hs.
  - exact Hs.
Qed.

(** X4. In every reachable state the address shown is the address of the
    signer held, and there is none when no signer is held. *)
Theorem address_of_signer (evs : list Event) :
  address (run evs) = getAddress <$> signer (run evs).
Proof.
  induction evs as [|ev evs IH] using rev_ind; [reflexivity |].
  rewrite Web3Facts.run_snoc. now apply signed_step.
Qed.

Lemma no_contract_off_chain (c : Z) (s : State) :
  steady c s -> is_required (Js.Int c) = false -> contract s = None.
Proof.
  intros (_ & _ & H & _) Hc. destruct (contract s) eqn:E; [| reflexivity].
  assert (Hk : Some c0 <> None) by discriminate.
  apply H in Hk as [_ Hreq]. apply Web3Facts.is_required_Int in Hreq. congruence.
Qed.

Lemma runs_set_account (c : Z) (name : string) (sg : Signer) (s s' : State) :
  steady c s -> contract s' = contract s ->
  runs_on_signer (set_account (mkNetwork c name) sg s').
Proof.
  intros Hs Hc. unfold runs_on_signer, set_account; simpl.
  destruct (is_required (Js.Int c)) eqn:E.
  - intros k [= <-]. split; reflexivity.
  - rewrite Hc, (no_contract_off_chain c s Hs E). discriminate.
Qed.

Lemma runs_checkConnection (c : Z) (w : World) (s s' : State) :
  reports c w = true -> steady c s ->
  contract s' = contract s -> signer s' = signer s ->
  runs_on_signer s -> runs_on_signer (checkConnection w s').
Proof.
  intros Hw Hs Hc Hsg Hr.
  assert (Hr' : runs_on_signer s') by (unfold runs_on_signer; now rewrite Hc, Hsg).
  unfold checkConnection.
  destruct (getNetwork w) as [n|] eqn:En; [| exact Hr'].
  rewrite (Web3Facts.reports_network c w n Hw En).
  destruct (listAccounts w) as [accounts|]; [| exact Hr'].
  destruct (Nat.ltb 0 (length accounts)); [| exact Hr'].
  destruct (getSigner w); [| exact Hr'].
  now apply (runs_set_account c _ _ s).
Qed.

Lemma runs_connectWallet (c : Z) (p : option BrowserProvider) (w : World) (s : State) :
  reports c w = true -> steady c s ->
  runs_on_signer s -> runs_on_signer (next (connectWallet p w s)).
Proof.
  intros Hw Hs Hr. unfold connectWallet.
  destruct p; [| exact Hr].
  destruct (ethereum_request w eth_requestAccounts); simpl; [| exact Hr].
  destruct (getNetwork w) as [n|] eqn:En; simpl; [| exact Hr].
  rewrite (Web3Facts.reports_network c w n Hw En).
  destruct (getSigner w) as [sg|]; simpl; [| exact Hr].
  apply (runs_set_account c (net_name n) sg s
           (set_network (mkNetwork c (net_name n)) (set_isConnecting true s)) Hs).
  reflexivity.
Qed.

Lemma runs_step (c : Z) (s : State) (ev : Event) :
  stays_on c ev = true -> steady c s ->
  runs_on_signer s -> runs_on_signer (step s ev).
Proof.
  destruct ev; simpl; intros Hev Hs Hr.
  - unfold mount. destruct (ethereum w); [| intros k; discriminate].
    apply (runs_checkConnection c w initial); auto.
    + apply Web3Facts.steady_initial.
    + intros k; discriminate.
  - unfold mount. destruct (ethereum w); [| exact Hr].
    now apply (runs_checkConnection c w s).
  - now apply (runs_connectWallet c).
  - intros k; discriminate.
  - unfold handleAccountsChanged. destruct (Nat.eqb (length accounts) 0); simpl.
    + intros k; discriminate.
    + now apply (runs_connectWallet c).
  - discriminate.
  - exact Hr.
Qed.

(** X5. While the wallet stays on one chain, a contract handle held by the
    session is the contract at the fixed address, run by the signer the
    session holds. *)
Theorem contract_runs_on_signer (c : Z) (evs : list Event) :
  forallb (stays_on c) evs = true ->
  forall k, contract (run evs) = Some k ->
            target k = contractAddress /\ signer (run evs) = Some (runner k).
Proof.
  induction evs as [|ev evs IH] using rev_ind; intros H.
  - intros k; discriminate.
  - rewrite forallb_app in H. apply andb_true_iff in H as [H1 H2].
    simpl in H2. rewrite andb_true_r in H2.
    rewrite Web3Facts.run_snoc.
    apply (runs_step c);
      [exact H2 | now apply Web3Facts.steady_run | exact (IH H1)].
Qed.

Lemma contract_runs_on_signer_witness :
  target (mkContract contractAddress alice) = contractAddress
  /\ signer (run [PageLoad codex; DisconnectWallet; ConnectWallet codex])
     = Some (runner (mkContract contractAddress alice)).
Proof.
  apply (contract_runs_on_signer REQUIRED_CHAIN_ID
           [PageLoad codex; DisconnectWallet; ConnectWallet codex]);
    reflexivity.
Defined.

(** *** The chain id on the wire *)

Lemma hex_digits_of_pos (p : positive) (rest : string) :
  hex_digits (HexString.Raw.of_pos p rest) = hex_digits rest.
Proof.
  revert rest. induction p as [p IH]
    using (well_founded_induction (well_founded_ltof positive Pos.to_nat)).
  unfold ltof in IH.
  intros rest.
  do 4 try destruct p as [p|p|]; try reflexivity;
    cbn [HexString.Raw.of_pos]; rewrite IH by lia; reflexivity.
Qed.

Lemma hex_prefix_to_N (s : string) (acc : N) :
  hex_digits s = true ->
  Js.hex_prefix (Some (Z.of_N acc)) s = Some (Z.of_N (HexString.Raw.to_N s acc)).
Proof.
  revert acc. induction s as [|ch s IH]; intros acc H; [reflexivity |].
  cbn [hex_digits] in H. cbn [Js.hex_prefix HexString.Raw.to_N].
  destruct (HexString.ascii_to_digit ch) as [v|]; [| discriminate].
  destruct (Js.hex_digit ch) as [d|]; [| discriminate].
  apply andb_true_iff in H as [Hd Hs]. apply Z.eqb_eq in Hd. subst d.
  replace (16 * Z.of_N acc + Z.of_N v)%Z with (Z.of_N (v + 16 * acc)) by lia.
  now apply IH.
Qed.

Lemma hex_prefix_start (s : string) :
  s <> "" -> hex_digits s = true ->
  Js.hex_prefix None s = Js.hex_prefix (Some 0%Z) s.
Proof.
  destruct s as [|ch s]; [congruence |]. intros _ H. cbn [hex_digits] in H.
  cbn [Js.hex_prefix].
  destruct (HexString.ascii_to_digit ch); [| discriminate].
  destruct (Js.hex_digit ch); [reflexivity | discriminate].
Qed.

Lemma of_pos_cons (p : positive) (rest : string) :
  HexString.Raw.of_pos p rest <> "".
Proof.
  revert rest. induction p as [p IH]
    using (well_founded_induction (well_founded_ltof positive Pos.to_nat)).
  unfold ltof in IH.
  intros rest.
  do 4 try destruct p as [p|p|]; try discriminate;
    cbn [HexString.Raw.of_pos]; apply IH; lia.
Qed.

Lemma hex_prefix_toString16 (n : N) :
  Js.hex_prefix None (Js.toString16 n) = Some (Z.of_N n).
Proof.
  destruct n as [|p]; [reflexivity |]. unfold Js.toString16.
  rewrite hex_prefix_start;
    [| apply of_pos_cons | now rewrite hex_digits_of_pos].
  change 0%Z with (Z.of_N 0).
  rewrite hex_prefix_to_N by now rewrite hex_digits_of_pos.
  now rewrite HexString.Raw.to_N_of_pos.
Qed.

(** Reading the hexadecimal form of a chain id gives the number value of
    the chain id. *)
Lemma parseInt16_toString16 (n : N) :
  Js.parseInt16 ("0x" ++ Js.toString16 n) = Js.toNumber (Z.of_N n).
Proof.
  change ("0x" ++ Js.toString16 n) with (String "0" (String "x" (Js.toString16 n))).
  unfold Js.parseInt16.
  change (Js.trimStart (String "0" (String "x" (Js.toString16 n))))
    with (String "0" (String "x" (Js.toString16 n))).
  cbn -[Js.hex_prefix Js.toString16 Js.toNumber].
  now rewrite hex_prefix_toString16.
Qed.

Lemma is_required_toNumber (z : Z) :
  (0 <= z)%Z -> is_required (Js.toNumber z) = true <-> z = REQUIRED_CHAIN_ID.
Proof.
  intros Hz. destruct (Z.le_gt_cases z MAX_SAFE_INTEGER) as [Hs | Hl].
  - rewrite JsFacts.toNumber_safe by (unfold safe; lia).
    apply Web3Facts.is_required_Int.
  - assert (Hb : (2 ^ 53 <= z)%Z)
      by (unfold MAX_SAFE_INTEGER in Hl; change (2 ^ 53)%Z with 9007199254740992%Z; lia).
    assert (Hne : z <> REQUIRED_CHAIN_ID)
      by (unfold MAX_SAFE_INTEGER, REQUIRED_CHAIN_ID in *; lia).
    split; [| intros E; destruct (Hne E)].
    intros H. destruct (Js.toNumber z) as [|x|b] eqn:E; try discriminate H.
    apply Web3Facts.is_required_Int in H.
    pose proof (JsFacts.toNumber_large z x Hb E) as Hx.
    change (2 ^ 53)%Z with 9007199254740992%Z in Hx.
    unfold REQUIRED_CHAIN_ID in H. lia.
Qed.

(** X6. A chain-changed event that carries a chain id in the form in which
    [switchNetwork] writes the required one ("0x" and the hexadecimal
    digits) sets [chainId] to the number value of that id, which is the id
    itself up to 2^53 - 1 and the nearest double beyond, and sets
    [isCorrectNetwork] exactly when the id is the required chain; the id
    that [switchNetwork] asks for is accepted. *)
Theorem chain_changed_reads_hex (n : N) (s : State) :
  chainId (fst (handleChainChanged ("0x" ++ Js.toString16 n) s))
  = Some (Js.toNumber (Z.of_N n))
  /\ ((Z.of_N n <= MAX_SAFE_INTEGER)%Z ->
      chainId (fst (handleChainChanged ("0x" ++ Js.toString16 n) s))
      = Some (Js.Int (Z.of_N n)))
  /\ (isCorrectNetwork (fst (handleChainChanged ("0x" ++ Js.toString16 n) s)) = true
      <-> Z.of_N n = REQUIRED_CHAIN_ID)
  /\ isCorrectNetwork (fst (handleChainChanged requiredChainHex s)) = true.
Proof.
  unfold handleChainChanged. cbn [fst chainId isCorrectNetwork].
  rewrite parseInt16_toString16. split; [reflexivity |]. split; [| split].
  - intros H. rewrite JsFacts.toNumber_safe; [reflexivity |]. unfold safe. lia.
  - apply is_required_toNumber. lia.
  - reflexivity.
Qed.

Lemma chain_changed_reads_hex_witness :
  chainId (fst (handleChainChanged "0xa045c" connected)) = Some (Js.Int 656476).
Proof.
  refine (proj1 (proj2 (chain_changed_reads_hex 656476%N connected)) _).
  unfold MAX_SAFE_INTEGER. simpl. lia.
Defined.

End SessionFacts.

(** ** More on the identity *)
Module IdentityFacts.
Import Auth Props Identity.

Lemma linkWallet_current (walletAddress : string) (a : App) :
  linkWallet walletAddress a = linkWalletFrom (user (auth a)) walletAddress a.
Proof. reflexivity. Qed.

Lemma updateAccountType_current (t : AccountType) (a : App) :
  updateAccountType t a = updateAccountTypeFrom (user (auth a)) t a.
Proof. reflexivity. Qed.

Lemma synced_write (u : User) (a : App) :
  synced (setItem u (set_user (Some u) a)).
Proof. unfold synced; simpl. apply lookup_insert_eq. Qed.

Lemma synced_set_isLoading (b : bool) (a : App) :
  synced a -> synced (set_isLoading b a).
Proof. unfold synced; simpl. auto. Qed.

Lemma synced_step (a : App) (ev : Event) : synced a -> synced (step a ev).
Proof.
  destruct ev; simpl; intros Hs.
  - unfold checkSession. apply synced_set_isLoading.
    destruct (localStorage a !! STORAGE_KEY) eqn:E; [| exact Hs].
    unfold synced; simpl. exact E.
  - unfold handleWalletConnection.
    destruct (Web3.address (web3 a)) as [address|]; [| exact Hs].
    destruct (Js.truthy address && negb (isLoading (auth a))); [| exact Hs].
    destruct (localStorage a !! STORAGE_KEY) as [parsedUser|].
    + destruct (negb _ || negb _); [| exact Hs].
      unfold linkWallet. destruct (user (auth a)); [apply synced_write | exact Hs].
    + apply synced_write.
  - apply synced_set_isLoading. unfold synced; simpl. apply lookup_insert_eq.
  - apply synced_set_isLoading. unfold synced; simpl. apply lookup_insert_eq.
  - unfold linkWalletFrom. destruct closure; [apply synced_write | exact Hs].
  - unfold disconnectWallet. destruct (user (auth a)); [| exact Hs].
    unfold synced; simpl. apply lookup_insert_eq.
  - unfold updateAccountTypeFrom. destruct closure; [apply synced_write | exact Hs].
  - unfold synced; simpl. apply lookup_delete_eq.
  - exact Hs.
Qed.

Lemma synced_fold (evs : list Event) (a : App) :
  synced a -> synced (fold_left step evs a).
Proof.
  revert a. induction evs as [|ev evs IH]; intros a Hs; [exact Hs |].
  simpl. apply IH. now apply synced_step.
Qed.

Lemma synced_checkSession_start (ls : gmap string User) :
  synced (checkSession (start ls)).
Proof.
  unfold synced, checkSession, start; simpl.
  destruct (ls !! STORAGE_KEY) eqn:E; simpl; exact E.
Qed.

(** *** The store and the identity *)

(** X7. Once the stored session has been checked, the store holds the
    identity in force, and nothing when there is none, whatever the user,
    the wallet and the effects do afterwards. *)
Theorem store_follows_identity (ls : gmap string User) (evs : list Event) :
  stored (run ls (CheckSession :: evs)) = identity (run ls (CheckSession :: evs)).
Proof.
  unfold run. simpl. apply synced_fold, synced_checkSession_start.
Qed.

(** X8. The identity survives a reload of the page: checking the session on
    the reloaded page restores the identity that was in force, and ends the
    loading. *)
Theorem identity_survives_reload (ls : gmap string User) (evs : list Event) :
  identity (checkSession (reload (run ls (CheckSession :: evs))))
  = identity (run ls (CheckSession :: evs))
  /\ isLoading (auth (checkSession (reload (run ls (CheckSession :: evs))))) = false.
Proof.
  split; [| reflexivity].
  assert (H : synced (run ls (CheckSession :: evs)))
    by (unfold run; simpl; apply synced_fold, synced_checkSession_start).
  unfold synced in H. unfold identity, checkSession, reload; simpl.
  rewrite H. now destruct (user (auth (run ls (CheckSession :: evs)))).
Qed.

(** *** The wallet effect *)

Lemma with_walletAddress_same (u : User) (w : option string) :
  walletAddress u = w -> with_walletAddress w u = u.
Proof. intros <-. now destruct u. Qed.

(** X9. When the store holds the identity in force, the session has an
    account address and the session check is over, the wallet effect leaves
    an identity linked to that address, in force and in the store: a new
    wallet identity when there was none, and otherwise the identity there
    was, whose [walletAddress] is now the session address (a different one
    is overwritten). *)
Theorem wallet_effect_links (a : App) (address : string) :
  stored a = identity a ->
  Web3.address (web3 a) = Some address ->
  address <> "" ->
  isLoading (auth a) = false ->
  walletAddress <$> identity (fst (handleWalletConnection a)) = Some (Some address)
  /\ stored (fst (handleWalletConnection a)) = identity (fst (handleWalletConnection a))
  /\ (forall u, identity a = Some u ->
                identity (fst (handleWalletConnection a))
                = Some (with_walletAddress (Some address) u)).
Proof.
  unfold stored, identity, handleWalletConnection. intros Hs -> Hne ->.
  apply JsFacts.truthy_nonempty in Hne. rewrite Hne. cbn [andb negb].
  rewrite Hs. destruct (user (auth a)) as [u|] eqn:Hu.
  - destruct (negb (Js.truthy_opt (walletAddress u))
              || negb (bool_decide (walletAddress u = Some address))) eqn:E.
    + unfold linkWallet. rewrite Hu. cbn.
      split; [reflexivity |]. split; [apply lookup_insert_eq |].
      now intros u' [= <-].
    + apply orb_false_iff in E as [_ E]. apply negb_false_iff in E.
      apply bool_decide_eq_true in E. cbn. rewrite Hu. cbn.
      split; [now rewrite E |]. split; [now rewrite Hs |].
      intros u' [= <-]. now rewrite with_walletAddress_same.
  - cbn. split; [reflexivity |]. split; [apply lookup_insert_eq |]. discriminate.
Qed.

Lemma wallet_effect_links_witness :
  walletAddress <$> identity (fst (handleWalletConnection
      (app (linkWallet "0x00000000219ab540356cBB839Cbe05303d7705Fa" member))))
  = Some (Some (Web3.getAddress alice)).
Proof.
  refine (proj1 (wallet_effect_links
                   (app (linkWallet "0x00000000219ab540356cBB839Cbe05303d7705Fa" member))
                   (Web3.getAddress alice) eq_refl eq_refl _ eq_refl)).
  discriminate.
Defined.

(** X10. Running the wallet effect again changes nothing more: its result is a
    state on which it does nothing. *)
Theorem wallet_effect_idempotent (a : App) :
  fst (handleWalletConnection (fst (handleWalletConnection a)))
  = fst (handleWalletConnection a).
Proof.
  destruct (handleWalletConnection a) as [a' effs] eqn:E. cbn [fst].
  unfold handleWalletConnection in E.
  destruct (Web3.address (web3 a)) as [address|] eqn:Ha;
    [| injection E as <- _; unfold handleWalletConnection; now rewrite Ha].
  destruct (Js.truthy address && negb (isLoading (auth a))) eqn:Hg;
    [| injection E as <- _; unfold handleWalletConnection; now rewrite Ha, Hg].
  assert (Ht : Js.truthy_opt (Some address) = true)
    by (apply andb_true_iff in Hg as [Ht _]; exact Ht).
  assert (Hlinked : forall u : User,
             fst (handleWalletConnection
                    (setItem (with_walletAddress (Some address) u)
                       (set_user (Some (with_walletAddress (Some address) u)) a)))
             = setItem (with_walletAddress (Some address) u)
                 (set_user (Some (with_walletAddress (Some address) u)) a)).
  { intros u. unfold handleWalletConnection.
    cbn [web3 setItem set_user auth isLoading localStorage].
    rewrite Ha, Hg, lookup_insert_eq. cbn [walletAddress with_walletAddress].
    rewrite Ht, bool_decide_eq_true_2 by reflexivity. reflexivity. }
  destruct (localStorage a !! STORAGE_KEY) as [parsedUser|] eqn:Hs.
  - destruct (negb (Js.truthy_opt (walletAddress parsedUser))
              || negb (bool_decide (walletAddress parsedUser = Some address))) eqn:Hl.
    + unfold linkWallet in E. destruct (user (auth a)) as [u|] eqn:Hu;
        cbn [app effects] in E; injection E as <- _.
      * apply Hlinked.
      * unfold handleWalletConnection. rewrite Ha, Hg, Hs, Hl.
        unfold linkWallet. now rewrite Hu.
    + injection E as <- _. unfold handleWalletConnection. now rewrite Ha, Hg, Hs, Hl.
  - injection E as <- _.
    apply (Hlinked {| id := "wallet-" ++ address;
                      name := "User " ++ Js.slice 0 6 address;
                      email := None; accountType := student;
                      walletAddress := Some address |}).
Qed.

(** *** What the identity does to the session *)

(** X11. An event of the identity leaves the session as it is, but for
    [disconnectWallet] and [logout] with an identity in force, which clear
    the signer, the address and the contract handle and nothing else. *)
Theorem identity_events_keep_session (a : App) (ev : Event) :
  of_identity ev = true ->
  web3 (step a ev) = web3 a
  \/ ((ev = DisconnectWallet \/ ev = Logout)
      /\ identity a <> None
      /\ web3 (step a ev) = Web3.clear_account (web3 a)).
Proof.
  unfold identity. destruct ev; cbn [of_identity step]; intros Hev; try discriminate.
  - left. unfold checkSession. now destruct (localStorage a !! STORAGE_KEY).
  - left. unfold handleWalletConnection.
    destruct (Web3.address (web3 a)); [| reflexivity].
    destruct (Js.truthy s && negb (isLoading (auth a))); [| reflexivity].
    destruct (localStorage a !! STORAGE_KEY); [| reflexivity].
    destruct (negb _ || negb _); [| reflexivity].
    unfold linkWallet. now destruct (user (auth a)).
  - now left.
  - now left.
  - left. unfold linkWalletFrom. now destruct closure.
  - unfold disconnectWallet. destruct (user (auth a)); [| now left].
    right. repeat split; [now left | discriminate].
  - left. unfold updateAccountTypeFrom. now destruct closure.
  - unfold logout. destruct (user (auth a)) as [u|]; [| now left].
    destruct (Js.truthy_opt (walletAddress u)); [| now left].
    right. repeat split; [now right | discriminate].
Qed.

Lemma identity_events_keep_session_witness :
  web3 (step member (Login "q1w2e3r" "b@institution.org" "secret")) = web3 member
  \/ ((Login "q1w2e3r" "b@institution.org" "secret" = DisconnectWallet
       \/ Login "q1w2e3r" "b@institution.org" "secret" = Logout)
      /\ identity member <> None
      /\ web3 (step member (Login "q1w2e3r" "b@institution.org" "secret"))
         = Web3.clear_account (web3 member)).
Proof.
  apply (identity_events_keep_session member
           (Login "q1w2e3r" "b@institution.org" "secret")).
  reflexivity.
Defined.

(** *** Changing an identity that is not there *)

(** With no identity in force, [linkWallet] and [updateAccountType] fail
    with "No user logged in" and a destructive toast, and change neither
    the state nor the store; [disconnectWallet] resolves and does nothing,
    without a toast. *)
Theorem mutation_needs_identity (a : App) (walletAddress : string) (t : AccountType) :
  identity a = None ->
  linkWallet walletAddress a
  = mkRun a (Throws noUserError) [Toast "Wallet linking failed" true]
  /\ updateAccountType t a
     = mkRun a (Throws noUserError) [Toast "Update failed" true]
  /\ disconnectWallet a = mkRun a (Resolves tt) [].
Proof.
  unfold identity, linkWallet, updateAccountType, disconnectWallet.
  intros ->. repeat split.
Qed.

Lemma mutation_needs_identity_witness :
  app (linkWallet (Web3.getAddress alice) visitor) = visitor
  /\ outcome (updateAccountType institution visitor) = Throws noUserError.
Proof.
  destruct (mutation_needs_identity visitor (Web3.getAddress alice) institution eq_refl)
    as (H1 & H2 & _).
  rewrite H1, H2. split; reflexivity.
Defined.

(** *** Logging out *)

(** X12. [logout] always resolves; it leaves no identity in force and none in
    the store, so that a reload finds none; it disconnects the session when
    the identity had a wallet address, and leaves the session as it is
    otherwise. *)
Theorem logout_forgets (a : App) :
  outcome (logout a) = Resolves tt
  /\ identity (app (logout a)) = None
  /\ stored (app (logout a)) = None
  /\ identity (checkSession (reload (app (logout a)))) = None
  /\ (forall u w, identity a = Some u -> walletAddress u = Some w -> w <> "" ->
                  web3 (app (logout a)) = Web3.clear_account (web3 a))
  /\ ((forall u, identity a = Some u -> Js.truthy_opt (walletAddress u) = false) ->
      web3 (app (logout a)) = web3 a).
Proof.
  unfold identity, stored. split; [reflexivity |]. split; [reflexivity |].
  assert (Hs : localStorage (app (logout a)) !! STORAGE_KEY = None)
    by (cbn; apply lookup_delete_eq).
  split; [exact Hs |]. split.
  - unfold checkSession, reload. cbn [localStorage]. now rewrite Hs.
  - unfold logout. split.
    + intros u w -> -> Hw. apply JsFacts.truthy_nonempty in Hw. cbn. now rewrite Hw.
    + intros H. destruct (user (auth a)) as [u|]; [| reflexivity].
      now rewrite (H u eq_refl).
Qed.

Lemma logout_forgets_witness :
  web3 (app (logout member)) = Web3.clear_account (web3 member)
  /\ web3 (app (logout visitor)) = web3 visitor.
Proof.
  split.
  - refine (proj1 (proj2 (proj2 (proj2 (proj2 (logout_forgets member)))))
              _ (Web3.getAddress alice) eq_refl eq_refl _).
    discriminate.
  - apply (proj2 (proj2 (proj2 (proj2 (proj2 (logout_forgets visitor)))))).
    intros u H. discriminate H.
Defined.

End IdentityFacts.

(** ** More on the credential pages *)
Module ReadsFacts.
Import Pages Props Reads.
Local Open Scope list_scope.
Local Open Scope Z_scope.

Lemma omap_length {A B : Type} (f : A -> option B) (l : list A) :
  (length (omap f l) <= length l)%nat.
Proof.
  induction l as [|x l IH]; [reflexivity |].
  cbn [omap list_omap]. destruct (f x); simpl; lia.
Qed.

Lemma bonus_bounds {A : Type} (f : A -> Z) (k : Z) (l : list A) (acc : Z) :
  (forall x, 0 <= f x <= k) ->
  acc <= fold_left (fun a x => a + f x) l acc <= acc + k * Z.of_nat (length l).
Proof.
  intros Hf. revert acc. induction l as [|x l IH]; intros acc.
  - simpl. lia.
  - cbn [fold_left length]. specialize (IH (acc + f x)). specialize (Hf x). lia.
Qed.

Lemma fold_left_ext_Z {A : Type} (f g : Z -> A -> Z) (l : list A) (acc : Z) :
  (forall a x, f a x = g a x) -> fold_left f l acc = fold_left g l acc.
Proof.
  intros H. revert acc. induction l as [|x l IH]; intros acc; [reflexivity |].
  simpl. now rewrite H, IH.
Qed.

Lemma universityBonus_bounds (l : list Credential) :
  0 <= universityBonus l <= 5 * Z.of_nat (length l).
Proof.
  unfold universityBonus.
  rewrite (fold_left_ext_Z _
             (fun a cred => a + (if Js.includes (Js.toLowerCase (university cred)) "university"
                                 then 5 else 0))).
  - apply (bonus_bounds _ 5 l 0). intros x. destruct (Js.includes _ _); lia.
  - intros a x. destruct (Js.includes _ _); lia.
Qed.

Lemma degreeBonus_bounds (l : list Credential) :
  0 <= degreeBonus l <= 10 * Z.of_nat (length l).
Proof.
  unfold degreeBonus.
  rewrite (fold_left_ext_Z _
             (fun a cred =>
                a + (let d := Js.toLowerCase (degree cred) in
                     if Js.includes d "master" || Js.includes d "phd" then 10
                     else if Js.includes d "bachelor" then 5 else 0))).
  - apply (bonus_bounds _ 10 l 0). intros x. cbv zeta.
    destruct (_ || _); [lia |]. destruct (Js.includes _ _); lia.
  - intros a x. cbv zeta.
    destruct (_ || _); [lia |]. destruct (Js.includes _ _); lia.
Qed.

Lemma owned_loop_length (c : Calls) (address : string) (count : Z) :
  0 <= count -> Z.of_nat (length (owned_loop c address count)) <= count.
Proof.
  intros Hc. rewrite PagesFacts.owned_loop_omap.
  pose proof (omap_length (owned_credential c address) (seq 0 (Z.to_nat count))) as H.
  rewrite length_seq in H. lia.
Qed.

(** *** The reputation score *)

(** X13. On the reputation page, when the balance read gives [count] (a count,
    so not negative), the score is ten points for each token counted,
    also those whose lookup failed, and at most fifteen more for each
    credential shown; it lies between 10 and 25 times [count], and no more
    credentials are shown than [count]. *)
Theorem reputation_bounds (c : Calls) (address : string)
    (contract : Web3.Contract) (v : View) (count : Z) :
  address <> "" ->
  balanceOf c address = Resolves count ->
  0 <= count ->
  let v' := fetchCredentials c (Some address) true (Some contract) v in
  Z.of_nat (length (credentials v')) <= count
  /\ 10 * count <= reputationScore v'
     <= 10 * count + 15 * Z.of_nat (length (credentials v'))
  /\ reputationScore v' <= 25 * count.
Proof.
  intros Ha Hb Hc. apply JsFacts.truthy_nonempty in Ha.
  unfold fetchCredentials. rewrite Ha, Hb. cbn [andb].
  destruct (Z.eqb_spec count 0) as [-> | Hne]; cbn.
  - lia.
  - pose proof (owned_loop_length c address count Hc).
    pose proof (universityBonus_bounds (owned_loop c address count)).
    pose proof (degreeBonus_bounds (owned_loop c address count)).
    lia.
Qed.

Lemma reputation_bounds_witness :
  Z.of_nat (length (credentials
     (fetchCredentials three_tokens (Some (Web3.getAddress alice)) true
        (Some aliceContract) emptyView))) <= 3
  /\ 10 * 3 <= reputationScore
        (fetchCredentials three_tokens (Some (Web3.getAddress alice)) true
           (Some aliceContract) emptyView)
     <= 10 * 3 + 15 * Z.of_nat (length (credentials
          (fetchCredentials three_tokens (Some (Web3.getAddress alice)) true
             (Some aliceContract) emptyView)))
  /\ reputationScore
       (fetchCredentials three_tokens (Some (Web3.getAddress alice)) true
          (Some aliceContract) emptyView) <= 25 * 3.
Proof.
  apply (reputation_bounds three_tokens (Web3.getAddress alice) aliceContract
           emptyView 3).
  - discriminate.
  - reflexivity.
  - lia.
Defined.

(** *** The dashboard and the reputation page *)



(** *** The pages that list the owner's credentials *)

(** X15. The credentials page, the resume page and the reputation page show
    the same list, the same error and the same loading flag, whatever the
    contract answers and whatever they showed before, as long as they
    showed the same. *)
Theorem list_pages_agree (c : Calls) (address : option string)
    (isCorrectNetwork : bool) (contract : option Web3.Contract) (v : View) :
  credentials (listCredentials c address isCorrectNetwork contract v)
  = credentials (fetchCredentials c address isCorrectNetwork contract v)
  /\ error (listCredentials c address isCorrectNetwork contract v)
     = error (fetchCredentials c address isCorrectNetwork contract v)
  /\ isLoading (listCredentials c address isCorrectNetwork contract v)
     = isLoading (fetchCredentials c address isCorrectNetwork contract v).
Proof.
  unfold listCredentials, fetchCredentials.
  destruct address as [a|]; [| repeat split].
  destruct contract; [| repeat split].
  destruct (Js.truthy a && isCorrectNetwork); [| repeat split].
  destruct (balanceOf c a) as [count|]; [| repeat split].
  destruct (Z.eqb count 0); repeat split.
Qed.

(** *** A refresh that fails *)

(** X16. When the first read of a refresh fails (the list of issued tokens, or
    the balance), every page sets its error and keeps the list and the
    score it showed before; the dashboard clears its count and keeps its
    score. *)
Theorem failed_refresh (c : Calls) (address : string) (contract : Web3.Contract)
    (v : View) (d : Dashboard) :
  address <> "" ->
  (forall e, getIssuedCertificates c address = Throws e ->
     let v' := fetchIssuedCredentials c (Some address) true (Some contract)
                 (Some Auth.institution) v in
     credentials v' = credentials v /\ error v' <> None /\ isLoading v' = false)
  /\ (forall e, balanceOf c address = Throws e ->
     let v' := fetchCredentials c (Some address) true (Some contract) v in
     let l' := listCredentials c (Some address) true (Some contract) v in
     let d' := countCredentials c (Some address) true (Some contract) d in
     credentials v' = credentials v /\ reputationScore v' = reputationScore v
     /\ error v' <> None
     /\ credentials l' = credentials v /\ error l' <> None
     /\ credentialCount d' = None /\ score d' = score d /\ failure d' <> None).
Proof.
  intros Ha. apply JsFacts.truthy_nonempty in Ha. split.
  - intros e He. unfold fetchIssuedCredentials. rewrite Ha, He. cbn.
    repeat split. discriminate.
  - intros e He. unfold fetchCredentials, listCredentials, countCredentials.
    rewrite Ha, He. cbn. repeat split; discriminate.
Qed.

Lemma failed_refresh_witness :
  credentials (fetchIssuedCredentials flaky (Some (Web3.getAddress alice)) true
                 (Some aliceContract) (Some Auth.institution) emptyView) = []
  /\ credentialCount (countCredentials flaky (Some "0x00000000219ab540356cBB839Cbe05303d7705Fa")
                        true (Some aliceContract) emptyDashboard) = None.
Proof.
  split.
  - refine (proj1 (proj1 (failed_refresh flaky (Web3.getAddress alice) aliceContract
                            emptyView emptyDashboard _) missingToken eq_refl)).
    discriminate.
  - refine (proj1 (proj2 (proj2 (proj2 (proj2 (proj2
              (proj2 (failed_refresh flaky "0x00000000219ab540356cBB839Cbe05303d7705Fa"
                        aliceContract emptyView emptyDashboard _)
                     missingToken eq_refl))))))).
    discriminate.
Defined.

End ReadsFacts.

(** ** The handlers of the pages *)
Module HandlersFacts.
Import Auth Props Identity Handlers.

(** *** Connecting from the settings page *)

(** X17. With an identity in force: when the wallet grants the request, the
    settings page leaves the session on the account and the identity linked
    to it, in force and in the store; when the wallet refuses, the identity,
    the store and the six session fields are as before. *)
Theorem settings_connect_links (w : Web3.World) (a : App) (u : User) :
  identity a = Some u ->
  Web3.provider (web3 a) <> None ->
  (forall r n sg,
      Web3.ethereum_request w eth_requestAccounts = Resolves r ->
      Web3.getNetwork w = Resolves n ->
      Web3.getSigner w = Resolves sg ->
      Web3.getAddress sg <> "" ->
      Web3.address (web3 (after (handleConnectWallet w a))) = Some (Web3.getAddress sg)
      /\ identity (after (handleConnectWallet w a))
         = Some (with_walletAddress (Some (Web3.getAddress sg)) u)
      /\ stored (after (handleConnectWallet w a))
         = identity (after (handleConnectWallet w a))
      /\ shown (handleConnectWallet w a)
         = (Web3.effects (Web3.connect w (web3 a)) ++ [Toast "Wallet linked" false])%list)
  /\ (forall e,
      Web3.ethereum_request w eth_requestAccounts = Throws e ->
      identity (after (handleConnectWallet w a)) = Some u
      /\ stored (after (handleConnectWallet w a)) = stored a
      /\ same_session (web3 a) (web3 (after (handleConnectWallet w a)))).
Proof.
  unfold identity, stored. intros Hu Hp.
  unfold handleConnectWallet, Web3.connect, Web3.connectWallet.
  destruct (Web3.provider (web3 a)) as [p|]; [| congruence]. split.
  - intros r n sg -> -> -> Hne. apply JsFacts.truthy_nonempty in Hne.
    cbn. rewrite Hu. cbn. rewrite Hne. cbn.
    split; [reflexivity |]. split; [reflexivity |].
    split; [apply lookup_insert_eq | reflexivity].
  - intros e ->. cbn. split; [exact Hu |]. split; [reflexivity |]. repeat split.
Qed.

Lemma settings_connect_links_witness :
  identity (after (handleConnectWallet codex
              (app (disconnectWallet member))))
  = Some {| id := "k3j9x2a"; name := "a"; email := Some "a@school.org";
            accountType := student;
            walletAddress := Some (Web3.getAddress alice) |}.
Proof.
  refine (proj1 (proj2 (proj1
            (settings_connect_links codex (app (disconnectWallet member))
               {| id := "k3j9x2a"; name := "a"; email := Some "a@school.org";
                  accountType := student; walletAddress := None |} eq_refl _)
            tt (Web3.mkNetwork Web3.REQUIRED_CHAIN_ID "open-campus-codex") alice
            eq_refl eq_refl eq_refl _))).
  - discriminate.
  - discriminate.
Defined.

(** *** Registering with a wallet *)

(** X18. On the register page, the wallet form registers the account and then
    calls the [updateAccountType] of the render in which it was submitted.
    With an identity in force at that time (the wallet effect creates one as
    soon as a wallet connects), the identity left in force and in the store
    is that earlier identity with the chosen account type: the name entered
    and the identity just registered are lost. With none in force, the
    registered identity stays, but the page reports a failure and does not
    go on to the dashboard. *)
Theorem wallet_registration (random_id name address : string)
    (accountType : AccountType) (walletConnected : bool) (a : App) :
  Web3.address (web3 a) = Some address ->
  address <> "" ->
  (forall u0, identity a = Some u0 ->
      identity (after (fst (onWalletSubmit random_id name accountType walletConnected a)))
      = Some (with_accountType accountType u0)
      /\ stored (after (fst (onWalletSubmit random_id name accountType walletConnected a)))
         = Some (with_accountType accountType u0)
      /\ pushed (fst (onWalletSubmit random_id name accountType walletConnected a))
         = ["/dashboard"]
      /\ snd (onWalletSubmit random_id name accountType walletConnected a) = true)
  /\ (identity a = None ->
      identity (after (fst (onWalletSubmit random_id name accountType walletConnected a)))
      = Some {| id := random_id; name := name; email := None;
                accountType := accountType; walletAddress := Some address |}
      /\ stored (after (fst (onWalletSubmit random_id name accountType walletConnected a)))
         = identity (after (fst (onWalletSubmit random_id name accountType walletConnected a)))
      /\ calm (shown (fst (onWalletSubmit random_id name accountType walletConnected a)))
         = false
      /\ pushed (fst (onWalletSubmit random_id name accountType walletConnected a)) = []
      /\ snd (onWalletSubmit random_id name accountType walletConnected a)
         = walletConnected).
Proof.
  unfold identity, stored. intros Ha Hne.
  pose proof (AuthFacts.truthy_opt_Some address Hne) as Ht.
  unfold onWalletSubmit, register, link_if_connected. rewrite Ha, Ht. cbn [outcome app].
  split.
  - intros u0 ->. cbn. repeat split. apply lookup_insert_eq.
  - intros ->. cbn. repeat split. apply lookup_insert_eq.
Qed.

Lemma wallet_registration_witness :
  identity (after (fst (onWalletSubmit "p0q8w7e" "Ada" institution false
                          (fst (handleWalletConnection visitor)))))
  = Some {| id := "wallet-0x71C7656EC7ab88b098defB751B7401B5f6d8976F";
            name := "User 0x71C7"; email := None; accountType := institution;
            walletAddress := Some "0x71C7656EC7ab88b098defB751B7401B5f6d8976F" |}
  /\ pushed (fst (onWalletSubmit "p0q8w7e" "Ada" institution false visitor)) = [].
Proof.
  split.
  - refine (proj1 (proj1 (wallet_registration "p0q8w7e" "Ada" (Web3.getAddress alice)
                            institution false (fst (handleWalletConnection visitor))
                            eq_refl _)
                     {| id := "wallet-0x71C7656EC7ab88b098defB751B7401B5f6d8976F";
                        name := "User 0x71C7"; email := None; accountType := student;
                        walletAddress := Some "0x71C7656EC7ab88b098defB751B7401B5f6d8976F" |}
                     eq_refl)).
    discriminate.
  - refine (proj1 (proj2 (proj2 (proj2
              (proj2 (wallet_registration "p0q8w7e" "Ada" (Web3.getAddress alice)
                        institution false visitor eq_refl _) eq_refl))))).
    discriminate.
Defined.

(** *** The line under the name in the user menu *)

Lemma slice_last_units (n : nat) (s : string) : last_units n s (slice_last n s).
Proof.
  unfold last_units, slice_last.
  destruct (Nat.le_gt_cases n (String.length s)) as [H | H].
  - destruct (JsFacts.substring_drop (String.length s - n) s) as (pre & Hs & Hk); [lia |].
    replace (String.length s - (String.length s - n))%nat with n in Hs by lia.
    exists pre. split; [exact Hs |]. left.
    assert (Hl : String.length s
                 = (String.length pre
                    + String.length (substring (String.length s - n) n s))%nat)
      by (rewrite Hs at 1; apply JsFacts.length_append).
    lia.
  - replace (String.length s - n)%nat with 0%nat by lia.
    rewrite JsFacts.substring_all by lia.
    exists "". split; [reflexivity |]. right. split; [reflexivity | lia].
Qed.

(** X20. For an identity created from a wallet, the menu shows the first six
    and the last four characters of the address, with three dots between;
    once that identity is unlinked, it shows "undefined...undefined". *)
Theorem subtitle_after_unlink (a : App) (address first last : string) :
  Web3.address (web3 a) = Some address ->
  address <> "" ->
  isLoading (auth a) = false ->
  stored a = None ->
  first_units 6 address first ->
  last_units 4 address last ->
  subtitle (identity (fst (handleWalletConnection a))) = first ++ "..." ++ last
  /\ subtitle (identity (app (disconnectWallet (fst (handleWalletConnection a)))))
     = "undefined...undefined".
Proof.
  unfold stored, identity, handleWalletConnection. intros -> Hne -> -> Hf Hl.
  apply JsFacts.truthy_nonempty in Hne. rewrite Hne. cbn [andb negb fst].
  split; [| reflexivity].
  rewrite <- (JsFacts.first_units_unique 6 address _ _
                (JsFacts.slice_first_units 6 address) Hf).
  rewrite <- (JsFacts.last_units_unique 4 address _ _
                (slice_last_units 4 address) Hl).
  reflexivity.
Qed.

Lemma subtitle_after_unlink_witness :
  subtitle (identity (fst (handleWalletConnection visitor))) = "0x71C7...976F"
  /\ subtitle (identity (app (disconnectWallet (fst (handleWalletConnection visitor)))))
     = "undefined...undefined".
Proof.
  refine (subtitle_after_unlink visitor (Web3.getAddress alice) "0x71C7" "976F"
            eq_refl _ eq_refl eq_refl _ _).
  - discriminate.
  - exists "656EC7ab88b098defB751B7401B5f6d8976F". split; [reflexivity |].
    left. reflexivity.
  - exists "0x71C7656EC7ab88b098defB751B7401B5f6d8".
    split; [reflexivity |]. left. reflexivity.
Defined.

(** *** The navigation of the dashboard *)

Lemma accountType_eqb_eq (x y : AccountType) : accountType_eqb x y = true <-> x = y.
Proof. destruct x, y; simpl; split; congruence. Qed.

(** X21. The entries rendered keep the order of the table. With an account
    type, an entry is rendered exactly when it has no roles or its roles
    hold that type; with no account type (nobody logged in), every entry is
    rendered, also those restricted to a role. *)
Theorem navigation_by_role (item : NavItem) (t : AccountType) :
  rendered None = navItems
  /\ (In item (rendered (Some t)) <->
      In item navItems
      /\ (roles item = None \/ exists rs, roles item = Some rs /\ In t rs))
  /\ (forall rs, roles item = Some rs -> ~ In t rs -> ~ In item (rendered (Some t))).
Proof.
  assert (Hin : In item (rendered (Some t)) <->
                In item navItems
                /\ (roles item = None \/ exists rs, roles item = Some rs /\ In t rs)).
  { unfold rendered. rewrite filter_In. unfold skipped, includes_role.
    destruct (roles item) as [rs|].
    - rewrite negb_involutive, existsb_exists. split.
      + intros [H (x & Hx & E)]. apply accountType_eqb_eq in E. subst x.
        split; [exact H |]. right. eauto.
      + intros [H [Hn | (rs' & [= <-] & Hrs)]]; [discriminate |].
        split; [exact H |]. exists t. split; [exact Hrs | now apply accountType_eqb_eq].
    - split; intros [H _]; (split; [exact H | auto]). }
  split; [reflexivity |]. split; [exact Hin |].
  intros rs Hr Hnot Hi. apply Hin in Hi as [_ [Hn | (rs' & Hr' & Ht)]]; congruence.
Qed.

Lemma navigation_by_role_witness :
  ~ In (mkNavItem "Issue Credential" "/dashboard/issue" (Some [institution]))
       (rendered (Some student)).
Proof.
  refine (proj2 (proj2 (navigation_by_role
            (mkNavItem "Issue Credential" "/dashboard/issue" (Some [institution]))
            student)) [institution] eq_refl _).
  intros [H | []]. discriminate H.
Defined.

End HandlersFacts.

(** ** The forms that call the contract *)
Module FormsFacts.
Import Props Forms.

(** *** Issuing *)

(** X22. The issue form calls [mintCertificate] exactly when the user is an
    institution, a contract is bound and the network is the required one,
    and then once, with the values of the form; otherwise it changes no
    cell, pushes no route and shows one destructive toast. *)
Theorem issue_guard (mintCertificate : MintArgs -> settled Tx)
    (accountType : option Auth.AccountType) (contract : option Web3.Contract)
    (isCorrectNetwork : bool) (values : MintArgs) (c : IssueCells) :
  (accountType = Some Auth.institution /\ contract <> None /\ isCorrectNetwork = true ->
   minted (issue_onSubmit mintCertificate accountType contract isCorrectNetwork values c)
   = [values])
  /\ (~ (accountType = Some Auth.institution /\ contract <> None
         /\ isCorrectNetwork = true) ->
      minted (issue_onSubmit mintCertificate accountType contract isCorrectNetwork values c)
      = []
      /\ cells (issue_onSubmit mintCertificate accountType contract isCorrectNetwork values c)
         = c
      /\ routes (issue_onSubmit mintCertificate accountType contract isCorrectNetwork values c)
         = []
      /\ map destructive
           (notices (issue_onSubmit mintCertificate accountType contract isCorrectNetwork
                       values c))
         = [true]).
Proof.
  unfold issue_onSubmit. split.
  - intros (-> & Hc & ->). destruct contract; [| congruence].
    destruct (mintCertificate values) as [tx|]; [| reflexivity].
    now destruct (wait tx).
  - intros Hn. destruct accountType as [[]|]; try (repeat split; fail).
    destruct contract; [| repeat split].
    destruct isCorrectNetwork; [| repeat split].
    exfalso. apply Hn. repeat split. discriminate.
Qed.

Lemma issue_guard_witness :
  minted (issue_onSubmit reverting (Some Auth.institution)
            (Some Reads.aliceContract) true ada_diploma (mkIssueCells false None))
  = [ada_diploma]
  /\ minted (issue_onSubmit reverting (Some Auth.student)
               (Some Reads.aliceContract) true ada_diploma (mkIssueCells false None))
     = [].
Proof.
  split.
  - apply (proj1 (issue_guard reverting (Some Auth.institution)
                    (Some Reads.aliceContract) true ada_diploma (mkIssueCells false None))).
    repeat split. discriminate.
  - apply (proj2 (issue_guard reverting (Some Auth.student)
                    (Some Reads.aliceContract) true ada_diploma (mkIssueCells false None))).
    intros (H & _). discriminate H.
Defined.

(** X23. Once the guards are passed: the hash of the transaction is shown as
    soon as [mintCertificate] is accepted, and stays shown when waiting for
    it fails; the page goes on to the credentials only when the wait
    succeeds; a failure of either call is shown with the cleaned message of
    the error and pushes no route; the form is never left submitting. *)
Theorem issue_transaction (mintCertificate : MintArgs -> settled Tx)
    (contract : Web3.Contract) (values : MintArgs) (c : IssueCells) :
  let r := issue_onSubmit mintCertificate (Some Auth.institution) (Some contract)
             true values c in
  isSubmitting (cells r) = false
  /\ (forall e, mintCertificate values = Throws e ->
        txHash (cells r) = None /\ routes r = []
        /\ notices r = [mkNotice "Failed to issue credential"
                          (Pages.issue_errorMessage e) true])
  /\ (forall tx e, mintCertificate values = Resolves tx -> wait tx = Throws e ->
        txHash (cells r) = Some (hash tx) /\ routes r = []
        /\ notices r = [mkNotice "Failed to issue credential"
                          (Pages.issue_errorMessage e) true])
  /\ (forall tx u, mintCertificate values = Resolves tx -> wait tx = Resolves u ->
        txHash (cells r) = Some (hash tx)
        /\ routes r = ["/dashboard/credentials"]
        /\ map destructive (notices r) = [false]).
Proof.
  cbv zeta. unfold issue_onSubmit. split; [| split; [| split]].
  - destruct (mintCertificate values) as [tx|]; [| reflexivity].
    now destruct (wait tx).
  - intros e ->. repeat split.
  - intros tx e -> ->. repeat split.
  - intros tx u -> ->. repeat split.
Qed.

Lemma issue_transaction_witness :
  txHash (cells (issue_onSubmit reverting (Some Auth.institution)
                   (Some Reads.aliceContract) true ada_diploma (mkIssueCells false None)))
  = Some "0x9f2c"
  /\ routes (issue_onSubmit reverting (Some Auth.institution)
               (Some Reads.aliceContract) true ada_diploma (mkIssueCells false None))
     = [].
Proof.
  destruct (issue_transaction reverting Reads.aliceContract ada_diploma
              (mkIssueCells false None)) as (_ & _ & H & _).
  destruct (H {| hash := "0x9f2c"; wait := Throws missingToken |} missingToken
              eq_refl eq_refl) as (H1 & H2 & _).
  split; [exact H1 | exact H2].
Defined.

(** *** Verifying *)

Example parseInt_digits_then_text : parseInt "12 abc" = Js.Int 12.
Proof. reflexivity. Qed.

Example parseInt_hex : parseInt "0x10" = Js.Int 16.
Proof. reflexivity. Qed.

Example parseInt_text : parseInt "seven" = Js.NaN.
Proof. reflexivity. Qed.

(** X24. Without a bound contract, or on another network, the verify form
    calls nothing and changes no cell. Otherwise it calls
    [verifyCertificate] once, with the token id read by [parseInt]; when the
    call succeeds the result is verified and carries the four fields
    returned, with no error; when it fails the result is not verified, its
    four fields are empty, and the error cell and the toast carry the same
    cleaned message. *)
Theorem verify_outcomes (verifyCertificate : Js.number -> settled Pages.Details)
    (contract : option Web3.Contract) (isCorrectNetwork : bool)
    (tokenId : string) (c : VerifyCells) :
  let r := verify_onSubmit verifyCertificate contract isCorrectNetwork tokenId c in
  (contract = None \/ isCorrectNetwork = false ->
     asked r = [] /\ vcells r = c /\ map destructive (vnotices r) = [true])
  /\ (contract <> None -> isCorrectNetwork = true ->
      asked r = [parseInt tokenId]
      /\ isVerifying (vcells r) = false
      /\ (forall d, verifyCertificate (parseInt tokenId) = Resolves d ->
            result (vcells r)
            = Some (mkVerificationResult true (Pages.d_studentName d) (Pages.d_degree d)
                      (Pages.d_university d) (Pages.d_ipfsHash d))
            /\ error (vcells r) = None)
      /\ (forall e, verifyCertificate (parseInt tokenId) = Throws e ->
            result (vcells r) = Some (mkVerificationResult false "" "" "" "")
            /\ error (vcells r) = Some (Pages.verify_errorMessage e)
            /\ vnotices r = [mkNotice "Verification failed"
                               (Pages.verify_errorMessage e) true])).
Proof.
  cbv zeta. unfold verify_onSubmit. split.
  - intros [-> | ->]; [repeat split |]. destruct contract; repeat split.
  - intros Hc ->. destruct contract; [| congruence].
    destruct (verifyCertificate (parseInt tokenId)) as [d|e] eqn:E.
    + split; [reflexivity |]. split; [reflexivity |]. split.
      * intros d' [= <-]. split; reflexivity.
      * intros e H. discriminate H.
    + split; [reflexivity |]. split; [reflexivity |]. split.
      * intros d H. discriminate H.
      * intros e' [= <-]. repeat split.
Qed.

Lemma verify_outcomes_witness :
  asked (verify_onSubmit only_seven None true "7" (mkVerifyCells false None None)) = []
  /\ asked (verify_onSubmit only_seven (Some Reads.aliceContract) true "7"
              (mkVerifyCells false None None)) = [Js.Int 7].
Proof.
  split.
  - apply (proj1 (verify_outcomes only_seven None true "7" (mkVerifyCells false None None))).
    left. reflexivity.
  - apply (proj2 (verify_outcomes only_seven (Some Reads.aliceContract) true "7"
                    (mkVerifyCells false None None))).
    + discriminate.
    + reflexivity.
Defined.

End FormsFacts.

(** ** The resume *)
Module ResumeFacts.
Import Props Resume.
Local Arguments prompt : simpl never.
Local Arguments formattedCredentials : simpl never.

Lemma occurs_in_refl (s : string) : occurs_in s s.
Proof. exists "", "". simpl. now rewrite JsFacts.append_nil_r. Qed.

Lemma occurs_in_app_l (sub s t : string) : occurs_in sub s -> occurs_in sub (s ++ t).
Proof.
  intros (pre & post & ->). exists pre, (post ++ t).
  now rewrite !JsFacts.append_assoc.
Qed.

Lemma occurs_in_app_r (sub s t : string) : occurs_in sub t -> occurs_in sub (s ++ t).
Proof.
  intros (pre & post & ->). exists (s ++ pre), post.
  now rewrite !JsFacts.append_assoc.
Qed.

Lemma join_occurs (sep x : string) (l : list string) :
  In x l -> occurs_in x (join sep l).
Proof.
  induction l as [|y l IH]; [intros [] |].
  intros [-> | H].
  - destruct l; [apply occurs_in_refl | apply occurs_in_app_l, occurs_in_refl].
  - destruct l as [|z l]; [destruct H |].
    change (join sep (y :: z :: l)) with (y ++ sep ++ join sep (z :: l)).
    apply occurs_in_app_r, occurs_in_app_r, IH, H.
Qed.

(** *** What the route answers *)

(** X25. The route answers 400 exactly when the credentials of the body are
    not an array or are an empty one, and then asks nothing of the model;
    it answers 200 exactly when the credentials are there, the user is
    there and the model gives a text, which is the resume returned; every
    other request is answered 500; the model is asked at most once. *)
Theorem route_answers (generateText : string -> settled string) (body : settled Body) :
  let r := POST generateText body in
  (status (fst r) = 400%Z <->
     exists b, body = Resolves b
               /\ (b_credentials b = NotAnArray \/ b_credentials b = ArrayOf []))
  /\ (status (fst r) = 400%Z -> snd r = [])
  /\ (status (fst r) = 200%Z <->
     exists b cs u text,
       body = Resolves b /\ b_credentials b = ArrayOf cs /\ cs <> [] /\ b_user b = Some u
       /\ generateText (prompt (Auth.name u) (formattedCredentials cs)) = Resolves text
       /\ payload (fst r) = resume_json text)
  /\ (status (fst r) = 200%Z \/ status (fst r) = 400%Z \/ fst r = failed)
  /\ (length (snd r) <= 1)%nat.
Proof.
  cbv zeta. unfold POST.
  destruct body as [b|e].
  - destruct (b_credentials b) as [|[|cred cs]] eqn:Hc.
    + cbn. split; [split; [intros _; exists b; auto | reflexivity] |].
      split; [reflexivity |].
      split; [split; [discriminate |] |].
      { intros (b' & cs & u & text & [= <-] & H & _). congruence. }
      split; [auto | lia].
    + cbn. split; [split; [intros _; exists b; auto | reflexivity] |].
      split; [reflexivity |].
      split; [split; [discriminate |] |].
      { intros (b' & cs & u & text & [= <-] & H & Hne & _). congruence. }
      split; [auto | lia].
    + assert (Hno : ~ exists b', Resolves b = Resolves b'
                       /\ (b_credentials b' = NotAnArray \/ b_credentials b' = ArrayOf []))
        by (intros (b' & [= <-] & [H | H]); congruence).
      destruct (b_user b) as [u|] eqn:Hu.
      * destruct (generateText (prompt (Auth.name u) (formattedCredentials (cred :: cs))))
          as [text|] eqn:Hg; cbn [fst snd status payload length failed].
        -- split; [split; [discriminate | intros H; destruct (Hno H)] |].
           split; [discriminate |].
           split; [split; [intros _ | reflexivity] |].
           { exists b, (cred :: cs), u, text. repeat split; auto; discriminate. }
           split; [auto | lia].
        -- split; [split; [discriminate | intros H; destruct (Hno H)] |].
           split; [discriminate |].
           split; [split; [discriminate |] |].
           { intros (b' & cs' & u' & text & [= <-] & H1 & _ & H2 & H3 & _).
             rewrite Hc in H1. rewrite Hu in H2.
             injection H1 as <-. injection H2 as <-. congruence. }
           split; [auto | lia].
      * cbn. split; [split; [discriminate | intros H; destruct (Hno H)] |].
        split; [discriminate |].
        split; [split; [discriminate |] |].
        { intros (b' & cs' & u' & text & [= <-] & _ & _ & H2 & _). congruence. }
        split; [auto | lia].
  - cbn. split; [split; [discriminate | intros (b & H & _); discriminate H] |].
    split; [discriminate |].
    split; [split; [discriminate |] |].
    { intros (b & cs & u & text & H & _). discriminate H. }
    split; [auto | lia].
Qed.

Lemma route_answers_witness :
  snd (POST (fun _ => Resolves "text") (Resolves (mkBody (ArrayOf []) None))) = [].
Proof.
  apply (proj1 (proj2 (route_answers (fun _ => Resolves "text")
                         (Resolves (mkBody (ArrayOf []) None))))).
  reflexivity.
Defined.

(** *** The page and the route *)

(** X26. The resume page posts only with at least one credential and an
    identity, so that the route never answers it 400. When it posts, the
    model is asked once, with the prompt made of the name of the identity
    and the credentials shown: the text it gives becomes the resume and the
    error is cleared; when it fails, the error is set and the resume shown
    before stays. *)
Theorem page_and_route (generateText : string -> settled string)
    (user : option Auth.User) (c : Cells) :
  let r := generateResume (served generateText) user c in
  (forall b, In b (snd r) ->
     status (fst (POST generateText (Resolves b))) <> 400%Z)
  /\ (credentials c = [] \/ user = None -> r = (c, []))
  /\ (forall u, user = Some u -> credentials c <> [] ->
      snd (POST generateText
             (Resolves {| b_credentials := ArrayOf (credentials c); b_user := user |}))
      = [prompt (Auth.name u) (formattedCredentials (credentials c))]
      /\ (forall text,
            generateText (prompt (Auth.name u) (formattedCredentials (credentials c)))
            = Resolves text ->
            resume (fst r) = Some text /\ error (fst r) = None)
      /\ (forall e,
            generateText (prompt (Auth.name u) (formattedCredentials (credentials c)))
            = Throws e ->
            resume (fst r) = resume c /\ error (fst r) <> None)).
Proof.
  cbv zeta. unfold generateResume, served, POST.
  destruct (credentials c) as [|cred cs] eqn:Hc.
  - cbn. split; [intros b [] |]. split; [reflexivity |]. intros u _ H. congruence.
  - destruct user as [u|].
    + cbn [length Nat.eqb orb negb b_credentials b_user fst].
      rewrite bool_decide_eq_true_2 by eauto. cbn [negb].
      destruct (generateText (prompt (Auth.name u) (formattedCredentials (cred :: cs))))
        as [text|e] eqn:Hg; cbn.
      * split.
        { intros b [<- | []]. cbn. rewrite Hg. cbn. discriminate. }
        split; [intros [H | H]; discriminate |].
        intros u' [= <-] _. rewrite Hg.
        split; [reflexivity |]. split; [intros t [= <-]; auto | discriminate].
      * split.
        { intros b [<- | []]. cbn. rewrite Hg. cbn. discriminate. }
        split; [intros [H | H]; discriminate |].
        intros u' [= <-] _. rewrite Hg.
        split; [reflexivity |]. split; [discriminate |].
        intros e' _. split; [reflexivity | discriminate].
    + cbn. split; [intros b [] |]. split; [reflexivity |]. discriminate.
Qed.

Lemma page_and_route_witness :
  resume (fst (generateResume (served (fun _ => Resolves "Ada, BSc"))
                 (Some (Auth.mkUser "k3j9x2a" "Ada" None Auth.student None))
                 (mkCells [Pages.mkCredential 1 "Ada" "BSc" "Open University" "Qm" None]
                    false None None)))
  = Some "Ada, BSc".
Proof.
  destruct (page_and_route (fun _ => Resolves "Ada, BSc")
              (Some (Auth.mkUser "k3j9x2a" "Ada" None Auth.student None))
              (mkCells [Pages.mkCredential 1 "Ada" "BSc" "Open University" "Qm" None]
                 false None None)) as (_ & _ & H).
  destruct (H (Auth.mkUser "k3j9x2a" "Ada" None Auth.student None) eq_refl)
    as (_ & Hok & _); [discriminate |].
  exact (proj1 (Hok "Ada, BSc" eq_refl)).
Defined.

(** *** The prompt *)

(** X27. The prompt names the user and holds the line of every credential of
    the request: its degree, its university and its id. *)
Theorem prompt_lists_credentials (name : string) (credentials : list Pages.Credential)
    (cred : Pages.Credential) :
  In cred credentials ->
  occurs_in name (prompt name (formattedCredentials credentials))
  /\ occurs_in ("- " ++ Pages.degree cred ++ " from " ++ Pages.university cred
                ++ " (Credential ID: " ++ toString10 (Pages.cred_id cred) ++ ")")
       (prompt name (formattedCredentials credentials)).
Proof.
  intros Hin. unfold prompt. split.
  - do 5 apply occurs_in_app_r. apply occurs_in_app_l, occurs_in_refl.
  - do 12 apply occurs_in_app_r. apply occurs_in_app_l.
    apply join_occurs. change (In (line cred) (map line credentials)).
    now apply in_map.
Qed.

Lemma prompt_lists_credentials_witness :
  occurs_in "- BSc from Open University (Credential ID: 12)"
    (prompt "Ada"
       (formattedCredentials
          [Pages.mkCredential 12 "Ada" "BSc" "Open University" "Qm" None])).
Proof.
  refine (proj2 (prompt_lists_credentials "Ada"
                   [Pages.mkCredential 12 "Ada" "BSc" "Open University" "Qm" None]
                   (Pages.mkCredential 12 "Ada" "BSc" "Open University" "Qm" None) _)).
  left. reflexivity.
Defined.

End ResumeFacts.
